(** * approved.js: validation engine and error-handler engine

    A shallow embedding of [dist/index.js] (classes [ValidationError] and
    [Approval]) and of the validator wrappers [validators/isFQDN],
    [validators/isURL] and [validators/isValid], with the properties of
    the rule-evaluation engines proved about the embedding.

    JavaScript values are a first-order datatype; the asynchronous methods
    (Babel's [_asyncToGenerator] around generator functions that [yield]
    each predicate call) are sequential computations in a state-and-error
    monad: a rejected promise is a [Throw], the awaited result of a call is
    a [Return], and the world [W] carries whatever the caller's predicates
    and blocks mutate between calls. *)

From Stdlib Require Import ZArith List String Bool Lia.
From stdpp Require Import gmap strings list.

Local Open Scope string_scope.
Local Open Scope Z_scope.
Set Warnings "-register-all".

(** ** JavaScript values *)

(** A function value: its [name] property and its identity.  Class
    constructors are function values too ([typeof C === 'function']). *)
Inductive fn : Type := Fn (name : string) (id : N).

Definition fn_name (f : fn) : string := let 'Fn n _ := f in n.

Definition fn_eqb (f g : fn) : bool :=
  match f, g with
  | Fn n i, Fn m j => String.eqb n m && N.eqb i j
  end.

(** [VObj chain props]: [chain] lists the constructors whose prototype lies
    on the object's prototype chain (what [instanceof] inspects); [props]
    lists the properties that can be read from the object, own or
    inherited, first binding first.  Objects and arrays are compared by
    reference in JavaScript; a structural value stands for one allocation,
    so two object operands of [===] are never the same reference.  A value
    is a snapshot: what a function writes into an object it is handed
    reaches later calls only through the world [W], so the values do not
    tell an object shared by two calls from two equal objects. *)
Inductive value : Type :=
| VUndefined
| VNull
| VBool (b : bool)
| VNum (n : Z)
| VStr (s : string)
| VFun (f : fn)
| VArr (items : list value)
| VObj (chain : list fn) (props : list (string * value)).

(** Completion of an awaited call: a value, or a thrown value (a promise
    rejection). *)
Inductive outcome (A : Type) : Type :=
| Return (a : A)
| Throw (e : value).
Arguments Return {A} a.
Arguments Throw {A} e.

(** [!!v] *)
Definition truthy (v : value) : bool :=
  match v with
  | VUndefined | VNull => false
  | VBool b => b
  | VNum n => negb (n =? 0)
  | VStr s => negb (String.eqb s "")
  | VFun _ | VArr _ | VObj _ _ => true
  end.

(** [typeof v] *)
Definition typeof (v : value) : string :=
  match v with
  | VUndefined => "undefined"
  | VNull => "object"
  | VBool _ => "boolean"
  | VNum _ => "number"
  | VStr _ => "string"
  | VFun _ => "function"
  | VArr _ | VObj _ _ => "object"
  end.

(** [a === b] *)
Definition strict_eq (a b : value) : bool :=
  match a, b with
  | VUndefined, VUndefined => true
  | VNull, VNull => true
  | VBool x, VBool y => Bool.eqb x y
  | VNum x, VNum y => x =? y
  | VStr x, VStr y => String.eqb x y
  | VFun f, VFun g => fn_eqb f g
  | _, _ => false
  end.

(** [a || b] *)
Definition or_else (a b : value) : value := if truthy a then a else b.

(** A parameter with a default: [arg === undefined ? dflt : arg]. *)
Definition default_arg (arg dflt : value) : value :=
  match arg with
  | VUndefined => dflt
  | _ => arg
  end.

(** Native constructors the engine meets. *)
Definition ErrorClass : fn := Fn "Error" 0.
Definition TypeErrorClass : fn := Fn "TypeError" 0.
Definition ArrayClass : fn := Fn "Array" 0.
Definition FunctionClass : fn := Fn "Function" 0.
Definition ObjectClass : fn := Fn "Object" 0.
(** [es6-error]'s default export, the base class of [ValidationError]. *)
Definition ExtendableError : fn := Fn "ExtendableError" 0.

(** The object literal [{}]. *)
Definition empty_object : value := VObj [ObjectClass] [].

Fixpoint lookup_prop (key : string) (props : list (string * value)) : value :=
  match props with
  | [] => VUndefined
  | (k, v) :: rest => if String.eqb key k then v else lookup_prop key rest
  end.

(** [new Error(message)]; [name] is read through [Error.prototype]. *)
Definition new_Error (message : string) : value :=
  VObj [ErrorClass; ObjectClass]
       [("message", VStr message); ("name", VStr "Error")].

(** A [TypeError] raised by the language itself. *)
Definition new_TypeError (message : string) : value :=
  VObj [TypeErrorClass; ErrorClass; ObjectClass]
       [("message", VStr message); ("name", VStr "TypeError")].

(** [v.key].  Reading a property of [undefined] or [null] throws; other
    primitives have none of the properties the engine reads; a function
    has its [name], an array its [length]. *)
Definition get_prop (v : value) (key : string) : outcome value :=
  match v with
  | VUndefined | VNull =>
      Throw (new_TypeError ("Cannot read property '" ++ key ++ "'"))
  | VObj _ props => Return (lookup_prop key props)
  | VFun f => Return (if String.eqb key "name" then VStr (fn_name f) else VUndefined)
  | VArr items =>
      Return (if String.eqb key "length" then VNum (Z.of_nat (length items))
              else VUndefined)
  | VBool _ | VNum _ | VStr _ => Return VUndefined
  end.

(** [v.key] where the read cannot throw; [undefined] where it would. *)
Definition read (v : value) (key : string) : value :=
  match get_prop v key with
  | Return x => x
  | Throw _ => VUndefined
  end.

(** The constructors on the prototype chain of a value. *)
Definition proto_chain (v : value) : list fn :=
  match v with
  | VObj chain _ => chain
  | VArr _ => [ArrayClass; ObjectClass]
  | VFun _ => [FunctionClass; ObjectClass]
  | _ => []
  end.

(** [v instanceof c] for a right-hand side [c] that has no
    [Symbol.hasInstance] method of its own (a constructor, [null], a plain
    object): a [c] that is not callable throws a [TypeError], and a
    primitive left-hand side is an instance of nothing.  [instanceof_op]
    below is the operator for every right-hand side. *)
Definition instanceof (v c : value) : outcome bool :=
  match c with
  | VFun f => Return (existsb (fn_eqb f) (proto_chain v))
  | _ => Throw (new_TypeError "Right-hand side of 'instanceof' is not callable")
  end.

(** ** [class ValidationError extends ExtendableError] *)

Definition ValidationError : fn := Fn "ValidationError" 0.

(** [constructor(errors, message = 'Validation failed')]: [super(message)],
    then [this.name], [this.code] and [this.errors] are assigned. *)
Definition new_ValidationError (errors message : value) : value :=
  let message := default_arg message (VStr "Validation failed") in
  VObj [ValidationError; ExtendableError; ErrorClass; ObjectClass]
       [("name", VStr "ValidationError");
        ("code", VNum 422);
        ("errors", errors);
        ("message", message)].

(** ** Rules *)

(** A validation rule [{path, validator, options, message}]; an omitted
    [options] is [VUndefined]. *)
Module Validation.
Record t : Type := Build
  { path : string; validator : string; options : value; message : string }.
End Validation.

(** A handler rule [{path, error, options, message}]; [error] is a kind
    name (a string) or a reference to an error kind. *)
Module Handler.
Record t : Type := Build
  { path : string; error : value; options : value; message : string }.
End Handler.

(** What a request handler leaves in Koa's [ctx]: [ctx.status] and
    [ctx.body]. *)
Module Ctx.
Record t : Type := Build { status : value; body : value }.
End Ctx.

(** The object literal [{ path, message }] both engines emit. *)
Definition field_error (path message : string) : value :=
  VObj [ObjectClass] [("path", VStr path); ("message", VStr message)].

(** ** The engine *)

Section Engine.

(** The state the caller's functions can observe and change. *)
Context {W : Type}.

(** A computation that runs to completion between two awaits. *)
Definition M (A : Type) : Type := W -> outcome A * W.

Definition ret {A} (a : A) : M A := fun w => (Return a, w).

Definition throw {A} (e : value) : M A := fun w => (Throw e, w).

Definition lift {A} (o : outcome A) : M A := fun w => (o, w).

Definition bind {A B} (m : M A) (k : A -> M B) : M B :=
  fun w =>
    match m w with
    | (Return a, w') => k a w'
    | (Throw e, w') => (Throw e, w')
    end.

Notation "x <- m ;; k" := (bind m (fun x => k))
  (at level 100, m at next level, right associativity).

(** The behaviour of the function values of the running program (handler
    blocks, [isValid] blocks): [apply_fn f args] is the awaited completion
    of [f(...args)]. *)
Variable apply_fn : fn -> list value -> M value.

(** [f(...args)] for an arbitrary value [f]. *)
Definition call (f : value) (args : list value) : M value :=
  match f with
  | VFun g => apply_fn g args
  | _ => throw (new_TypeError "is not a function")
  end.

(** [v instanceof c], the operator: when the object [c] has a
    [Symbol.hasInstance] method (read here under the key
    ["@@hasInstance"]), the truthiness of its result decides; a value under
    that key that is neither a function nor [undefined] or [null] throws;
    otherwise [c] must be callable and the prototype chain decides. *)
Definition instanceof_op (v c : value) : M bool :=
  match c with
  | VObj _ props =>
      match lookup_prop "@@hasInstance" props with
      | VUndefined | VNull => lift (instanceof v c)
      | VFun method => r <- apply_fn method [v] ;; ret (truthy r)
      | _ => throw (new_TypeError "is not a function")
      end
  | _ => lift (instanceof v c)
  end.

(** [dottie.get(object, path, default)], the path accessor of the
    [dottie] package. *)
Variable dottie_get : value -> string -> value -> value.

(** [isFQDN] and [isURL] of the [validator] package, applied to a string
    and an options object. *)
Variable validator_isFQDN : string -> value -> outcome value.
Variable validator_isURL : string -> value -> outcome value.

(** A registered validator, called as [validator(value, options, context)]. *)
Definition validator : Type := value -> value -> value -> M value.

(** *** [validators/isFQDN.js] *)

Definition isFQDN : validator := fun str _ref _ =>
  let _ref := default_arg _ref empty_object in
  _ref_requireTld <- lift (get_prop _ref "requireTld") ;;
  let requireTld := default_arg _ref_requireTld (VBool true) in
  _ref_allowUnderscores <- lift (get_prop _ref "allowUnderscores") ;;
  let allowUnderscores := default_arg _ref_allowUnderscores (VBool false) in
  _ref_allowTrailingDot <- lift (get_prop _ref "allowTrailingDot") ;;
  let allowTrailingDot := default_arg _ref_allowTrailingDot (VBool false) in
  match str with
  | VStr s => (* typeof str === 'string' *)
      lift (validator_isFQDN s
              (VObj [ObjectClass]
                    [("require_tld", requireTld);
                     ("allow_underscores", allowUnderscores);
                     ("allow_trailing_dot", allowTrailingDot)]))
  | _ => ret (VBool false)
  end.

(** *** [validators/isURL.js] *)

Definition isURL : validator := fun str _ref _ =>
  let _ref := default_arg _ref empty_object in
  p <- lift (get_prop _ref "protocols") ;;
  let protocols := default_arg p (VArr [VStr "http"; VStr "https"; VStr "ftp"]) in
  p <- lift (get_prop _ref "requireTld") ;;
  let requireTld := default_arg p (VBool true) in
  p <- lift (get_prop _ref "requireProtocol") ;;
  let requireProtocol := default_arg p (VBool true) in
  p <- lift (get_prop _ref "requireValidProtocol") ;;
  let requireValidProtocol := default_arg p (VBool true) in
  p <- lift (get_prop _ref "allowUnderscores") ;;
  let allowUnderscores := default_arg p (VBool false) in
  p <- lift (get_prop _ref "allowTrailingDot") ;;
  let allowTrailingDot := default_arg p (VBool false) in
  p <- lift (get_prop _ref "allowProtocolRelativeUrls") ;;
  let allowProtocolRelativeUrls := default_arg p (VBool false) in
  match str with
  | VStr s => (* typeof str === 'string' *)
      lift (validator_isURL s
              (VObj [ObjectClass]
                    [("protocols", protocols);
                     ("require_tld", requireTld);
                     ("require_protocol", requireProtocol);
                     ("require_valid_protocol", requireValidProtocol);
                     ("allow_underscores", allowUnderscores);
                     ("allow_trailing_dot", allowTrailingDot);
                     ("allow_protocol_relative_urls", allowProtocolRelativeUrls)]))
  | _ => ret (VBool false)
  end.

(** *** The format validators outside [src/] *)

(** Modelled from the spec: the wrappers of the built-in format validators
    whose modules are not part of the sources at hand ([isBase64],
    [isCreditCard], [isDate], [isEmail], [isHexadecimal], [isHexColor],
    [isIP], [isISBN], [isISIN], [isJSON], [isMACAddress], [isMongoId],
    [isUUID]).  The spec says of each built-in that it "returns false
    (never fails) when given a value of the wrong basic type (e.g., a
    non-string to a string validator)"; given a string, the wrapper asks
    the package's predicate. *)
Definition format_validator (predicate : string -> value -> outcome value)
    : validator := fun str options _ =>
  match str with
  | VStr s => lift (predicate s options)
  | _ => ret (VBool false)
  end.

(** *** [validators/isValid.js] *)

Definition isValid : validator := fun val _ref options =>
  block <- lift (get_prop _ref "block") ;;
  let options := default_arg options empty_object in
  call block [val; options].

(** *** [class Approval] *)

(** [validators] maps a name to what [this.validators[name]] reads, for the
    names at which that value is truthy: own properties (those of the
    constructor's object literal, those the caller assigns later) and the
    members the object inherits.  Calling a value that is not a function
    throws, which is a validator that throws. *)
Record Approval : Type := { validators : gmap string validator }.

(** The members an object literal inherits from [Object.prototype], read
    by name and called as validators. *)
Variable Object_prototype : gmap string validator.

(** The validator modules the constructor requires whose source is not
    part of this development, by module name. *)
Variable require_validator : string -> validator.

(** [constructor()]: the registry of built-in validators. *)
Definition new_Approval : Approval :=
  {| validators :=
       list_to_map
         [("contains", require_validator "contains");
          ("isAbsent", require_validator "isAbsent");
          ("isBase64", require_validator "isBase64");
          ("isByteLength", require_validator "isByteLength");
          ("isCreditCard", require_validator "isCreditCard");
          ("isDate", require_validator "isDate");
          ("isEmail", require_validator "isEmail");
          ("isExcluded", require_validator "isExcluded");
          ("isFQDN", isFQDN);
          ("isHexadecimal", require_validator "isHexadecimal");
          ("isHexColor", require_validator "isHexColor");
          ("isIncluded", require_validator "isIncluded");
          ("isIP", require_validator "isIP");
          ("isISBN", require_validator "isISBN");
          ("isISIN", require_validator "isISIN");
          ("isJSON", require_validator "isJSON");
          ("isLength", require_validator "isLength");
          ("isLowercase", require_validator "isLowercase");
          ("isMACAddress", require_validator "isMACAddress");
          ("isMongoId", require_validator "isMongoId");
          ("isPresent", require_validator "isPresent");
          ("isUppercase", require_validator "isUppercase");
          ("isURL", isURL);
          ("isUUID", require_validator "isUUID");
          ("isValid", isValid);
          ("matches", require_validator "matches")]
       ∪ Object_prototype |}.

(** [showValidationError(errors, options = {})] *)
Definition showValidationError (errors : list value) (options : value) : M value :=
  if (0 <? length errors)%nat
  then throw (new_ValidationError (VArr errors) VUndefined)
  else ret VUndefined.

(** The [for (let validation of validations)] loop of [validateInput];
    [errors] is the array the loop pushes to. *)
Fixpoint validate_each (this : Approval) (input options : value)
    (validations : list Validation.t) (errors : list value) : M (list value) :=
  match validations with
  | [] => ret errors
  | validation :: rest =>
      let path := Validation.path validation in
      let message := Validation.message validation in
      let validatorName := Validation.validator validation in
      match (validators this !! validatorName : option validator) with
      | None => (* !validator *)
          throw (new_Error ("Unknown validator " ++ validatorName))
      | Some validatorFn =>
          let val := dottie_get input path VNull in
          valid <- validatorFn val
                     (or_else (Validation.options validation) empty_object)
                     (or_else options empty_object) ;;
          validate_each this input options rest
            (if truthy valid then errors
             else errors ++ [field_error path message])
      end
  end.

(** [validateInput(input, validations, options = {})] *)
Definition validateInput (this : Approval) (input : value)
    (validations : list Validation.t) (options : value) : M value :=
  let options := default_arg options empty_object in
  errors <- validate_each this input options validations [] ;;
  showValidationError errors options.

(** The three tests a handler candidate passes before it is chosen; each
    [continue] of the source is a [ret false]. *)
Definition handler_applies (err : value) (handlerCandidate : Handler.t)
    (options : value) : M bool :=
  let handlerOptions := or_else (Handler.options handlerCandidate) empty_object in
  let error := Handler.error handlerCandidate in
  (* name *)
  err_name <- lift (get_prop err "name") ;;
  name_ok <- (if strict_eq error err_name then ret true
              else if String.eqb (typeof error) "object"
                   then instanceof_op err error
                   else ret false) ;;
  if negb name_ok then ret false else
  (* code *)
  code <- lift (get_prop handlerOptions "code") ;;
  code_ok <- (if String.eqb (typeof code) "undefined" then ret true
              else err_code <- lift (get_prop err "code") ;;
                   ret (strict_eq code err_code)) ;;
  if negb code_ok then ret false else
  (* block *)
  block <- lift (get_prop handlerOptions "block") ;;
  if String.eqb (typeof block) "undefined" then ret true
  else r <- call block [err; options] ;; ret (truthy r).

(** The [for (let handlerCandidate of handlers)] loop of [handleError]:
    the first candidate that applies, or [None] for [handler = null]. *)
Fixpoint find_handler (err : value) (handlers : list Handler.t)
    (options : value) : M (option Handler.t) :=
  match handlers with
  | [] => ret None
  | handlerCandidate :: rest =>
      applies <- handler_applies err handlerCandidate options ;;
      if applies then ret (Some handlerCandidate)
      else find_handler err rest options
  end.

(** [handleError(err, handlers, options = {})]; [handlers] is [None] when
    the argument is omitted, and iterating [undefined] throws. *)
Definition handleError (err : value) (handlers : option (list Handler.t))
    (options : value) : M value :=
  let options := default_arg options empty_object in
  is_validation_error <- lift (instanceof err (VFun ValidationError)) ;;
  if is_validation_error then lift (get_prop err "errors")
  else
    match handlers with
    | None => throw (new_TypeError "undefined is not iterable")
    | Some handlers =>
        handler <- find_handler err handlers options ;;
        match handler with
        | Some handler =>
            ret (VArr [field_error (Handler.path handler) (Handler.message handler)])
        | None => ret VNull
        end
    end.

(** *** Observing a validation run *)

(** The values the predicates of [validations] yield when they are called
    in order, the way [validate_each] calls them, with the world after the
    last call; [None] when a validator name does not resolve or a predicate
    throws. *)
Fixpoint predicate_results (this : Approval) (input options : value)
    (validations : list Validation.t) (w : W) : option (list value * W) :=
  match validations with
  | [] => Some ([], w)
  | validation :: rest =>
      match (validators this !! Validation.validator validation : option validator) with
      | None => None
      | Some validatorFn =>
          match validatorFn (dottie_get input (Validation.path validation) VNull)
                  (or_else (Validation.options validation) empty_object)
                  (or_else options empty_object) w with
          | (Return v, w') =>
              match predicate_results this input options rest w' with
              | Some (vs, w'') => Some (v :: vs, w'')
              | None => None
              end
          | (Throw _, _) => None
          end
      end
  end.

(** The entries [{path, message}] of the rules whose predicate yielded a
    falsy value, in rule order. *)
Definition failures (validations : list Validation.t) (results : list value)
    : list value :=
  map (fun rv => field_error (Validation.path (fst rv)) (Validation.message (fst rv)))
      (List.filter (fun rv => negb (truthy (snd rv))) (combine validations results)).

(** *** Registering a validator *)

(** [approval.validators[name] = fn], as [example/index.js] does for
    [isCool]. *)
Definition set_validator (this : Approval) (name : string) (fn : validator)
    : Approval :=
  {| validators := <[name := fn]> (validators this) |}.

(** *** [example/index.js]: the request handler *)

(** [try { body } catch (err) { handler }] *)
Definition try_catch {A} (body : M A) (handler : value -> M A) : M A :=
  fun w =>
    match body w with
    | (Return a, w') => (Return a, w')
    | (Throw err, w') => handler err w'
    end.

(** [console.log(...args)]: it writes to the console and returns
    [undefined]. *)
Variable console_log : list value -> W -> W.

Definition log (args : list value) : M value :=
  fun w => (Return VUndefined, console_log args w).

(** The function given to [app.use]: [ctx.request.body] is the argument,
    the [ctx.status] and [ctx.body] it assigns are the result.  [approval]
    and [validations] are the module's constants. *)
Definition example_middleware (approval : Approval)
    (validations : list Validation.t) (request_body : value) : M Ctx.t :=
  try_catch
    (validated <- validateInput approval request_body validations VUndefined ;;
     logged <- log [VStr "Response:"; request_body] ;;
     ret (Ctx.Build (VNum 200) request_body))
    (fun err =>
       errors <- handleError err None VUndefined ;;
       code <- lift (get_prop err "code") ;;
       logged <- log [VStr "Response:"; VObj [ObjectClass] [("errors", errors)]] ;;
       ret (Ctx.Build code (VObj [ObjectClass] [("errors", errors)]))).

End Engine.

(** ** A concrete program to run the engine on *)

Module Demo.

(** The world is the log of the blocks called so far, oldest first. *)
Definition world : Type := list string.

(** Four blocks: [yes] and [no] answer with a constant, [isString] tests
    its first argument, and any other function throws.  Every call is
    logged. *)
Definition apply_fn (f : fn) (args : list value) : M (W := world) value :=
  fun log =>
    let log' := (log ++ [fn_name f])%list in
    if String.eqb (fn_name f) "yes" then (Return (VBool true), log')
    else if String.eqb (fn_name f) "no" then (Return (VBool false), log')
    else if String.eqb (fn_name f) "isString" then
      (Return (VBool (match args with VStr _ :: _ => true | _ => false end)), log')
    else (Throw (new_Error "boom"), log').

Definition yes : value := VFun (Fn "yes" 1).
Definition no : value := VFun (Fn "no" 2).
Definition isString : value := VFun (Fn "isString" 3).

(** An accessor for paths of a single segment. *)
Definition get (object : value) (path : string) (default : value) : value :=
  match object with
  | VObj _ props => default_arg (lookup_prop path props) default
  | _ => default
  end.

(** Stand-ins for the [validator] package: every string is accepted. *)
Definition accept (s : string) (options : value) : outcome value :=
  Return (VBool true).

(** Stand-ins for the validator modules that are not modelled: every
    value is rejected. *)
Definition reject : string -> validator (W := world) :=
  fun _ _ _ _ => ret (VBool false).

(** [Object.prototype] as the registry sees it.  Called without a
    receiver, [Object] returns an object for every argument and [toString]
    returns ["[object Undefined]"]; [isPrototypeOf] answers [false] to a
    primitive; the other members throw a [TypeError], as does calling the
    object that [__proto__] reads. *)
Definition no_receiver : validator (W := world) :=
  fun _ _ _ => throw (new_TypeError "Cannot convert undefined or null to object").

Definition object_prototype : gmap string (validator (W := world)) :=
  list_to_map
    [("constructor",
      fun v _ _ =>
        ret (match v with
             | VUndefined | VNull => empty_object
             | VBool _ => VObj [Fn "Boolean" 0; ObjectClass] []
             | VNum _ => VObj [Fn "Number" 0; ObjectClass] []
             | VStr _ => VObj [Fn "String" 0; ObjectClass] []
             | _ => v
             end));
     ("toString", fun _ _ _ => ret (VStr "[object Undefined]"));
     ("isPrototypeOf",
      fun v _ _ =>
        match v with
        | VFun _ | VArr _ | VObj _ _ => no_receiver v VUndefined VUndefined
        | _ => ret (VBool false)
        end);
     ("hasOwnProperty", no_receiver);
     ("propertyIsEnumerable", no_receiver);
     ("toLocaleString", no_receiver);
     ("valueOf", no_receiver);
     ("__defineGetter__", no_receiver);
     ("__defineSetter__", no_receiver);
     ("__lookupGetter__", no_receiver);
     ("__lookupSetter__", no_receiver);
     ("__proto__", fun _ _ _ => throw (new_TypeError "is not a function"))].

Definition approval : Approval (W := world) :=
  new_Approval apply_fn accept accept object_prototype reject.

Definition options_with_block (block : value) : value :=
  VObj [ObjectClass] [("block", block)].

Definition rule (path : string) (block : value) (message : string) : Validation.t :=
  Validation.Build path "isValid" (options_with_block block) message.

(** [{name: 'John', age: 42}] *)
Definition input : value :=
  VObj [ObjectClass] [("name", VStr "John"); ("age", VNum 42)].

(** [new TypeError('x')] *)
Definition type_error : value := new_TypeError "x".

(** A handler rule that names an error kind and has no options. *)
Definition on (kind : value) (message : string) : Handler.t :=
  Handler.Build "system" kind VUndefined message.

(** [new ValidationError([{path: 'name', message: 'must be present'}])] *)
Definition validation_error : value :=
  new_ValidationError (VArr [field_error "name" "must be present"]) VUndefined.

(** Three rules on [input]: the first passes, the other two fail. *)
Definition validations : list Validation.t :=
  [rule "name" isString "must be a string";
   rule "age" isString "must be a string too";
   rule "age" no "is never valid"].

(** A rule whose validator is not registered. *)
Definition isCool : Validation.t :=
  Validation.Build "word" "isCool" VUndefined "must be cool".

(** The validator the example registers under [isCool]: the value is the
    string ['cool']. *)
Definition cool : validator (W := world) :=
  fun v _ _ => ret (VBool (strict_eq v (VStr "cool"))).

(** The console shares the log with the blocks. *)
Definition console_log (args : list value) (log : world) : world :=
  (log ++ ["console.log"])%list.

(** A block that throws. *)
Definition boom : value := VFun (Fn "boom" 4).

End Demo.

(** ** Properties of the engine *)

Section Properties.

Context {W : Type}.
Variable apply_fn : fn -> list value -> M (W := W) value.
Variable dottie_get : value -> string -> value -> value.
Variable validator_isFQDN : string -> value -> outcome value.
Variable validator_isURL : string -> value -> outcome value.

(** *** Instances of a class *)

Lemma instanceof_ValidationError_object err :
  instanceof err (VFun ValidationError) = Return true ->
  exists chain props, err = VObj chain props.
Proof.
  destruct err; simpl; try discriminate; eauto.
Qed.

Lemma new_ValidationError_instance errors message :
  instanceof (new_ValidationError errors message) (VFun ValidationError)
  = Return true.
Proof. reflexivity. Qed.

Lemma typeof_undefined v :
  String.eqb (typeof v) "undefined" = strict_eq v VUndefined.
Proof. destruct v; reflexivity. Qed.

Lemma or_else_object_not_null v :
  strict_eq (or_else v empty_object) VNull = false.
Proof.
  unfold or_else. destruct (truthy v) eqn:E; [|reflexivity].
  destruct v; try reflexivity; discriminate.
Qed.

(** *** The loop of [validateInput] *)

Lemma failures_cons validation rest v vs :
  failures (validation :: rest) (v :: vs) =
  ((if truthy v then []
    else [field_error (Validation.path validation) (Validation.message validation)])
   ++ failures rest vs)%list.
Proof.
  unfold failures. simpl. destruct (truthy v); reflexivity.
Qed.

Lemma predicate_results_length this input options validations :
  forall (w : W) vs w',
    predicate_results dottie_get this input options validations w = Some (vs, w') ->
    length vs = length validations.
Proof.
  induction validations as [|validation rest IH]; simpl; intros w vs w' H.
  - injection H as <- _. reflexivity.
  - destruct (validators this !! Validation.validator validation) as [f|]; [|discriminate].
    destruct (f _ _ _ w) as [[v|e] w1]; [|discriminate].
    destruct (predicate_results _ _ _ _ rest w1) as [[vs1 w2]|] eqn:E; [|discriminate].
    injection H as <- _. simpl. f_equal. eauto.
Qed.


Lemma failures_nil_iff validations :
  forall vs,
    length vs = length validations ->
    failures validations vs = [] <-> forallb truthy vs = true.
Proof.
  induction validations as [|validation rest IH]; intros [|v vs] Hlen;
    try discriminate; [split; reflexivity|].
  rewrite failures_cons. simpl. destruct (truthy v); simpl.
  - apply IH. simpl in Hlen. lia.
  - split; discriminate.
Qed.

(** When every name resolves and no predicate throws, the loop ends with
    the entries for the falsy results appended to [errors]. *)
Lemma validate_each_results this input options validations :
  forall errors (w : W) vs w',
    predicate_results dottie_get this input options validations w = Some (vs, w') ->
    validate_each dottie_get this input options validations errors w
    = (Return (errors ++ failures validations vs)%list, w').
Proof.
  induction validations as [|validation rest IH]; simpl; intros errors w vs w' H.
  - injection H as <- <-. unfold failures. simpl. rewrite app_nil_r. reflexivity.
  - destruct (validators this !! Validation.validator validation) as [f|]; [|discriminate].
    unfold bind.
    destruct (f _ _ _ w) as [[v|e] w1]; [|discriminate].
    destruct (predicate_results _ _ _ _ rest w1) as [[vs1 w2]|] eqn:E; [|discriminate].
    injection H as <- <-.
    rewrite (IH _ _ _ _ E), failures_cons.
    destruct (truthy v); simpl; [reflexivity|].
    rewrite <- app_assoc. reflexivity.
Qed.

(** When the rules before an unresolved name were all evaluated, the loop
    throws at that rule, whatever it has accumulated and whatever follows. *)
Lemma validate_each_unknown this input options before validation after :
  forall errors (w : W) vs w',
    predicate_results dottie_get this input options before w = Some (vs, w') ->
    validators this !! Validation.validator validation = None ->
    validate_each dottie_get this input options
      (before ++ validation :: after) errors w
    = (Throw (new_Error ("Unknown validator " ++ Validation.validator validation)), w').
Proof.
  induction before as [|b rest IH]; intros errors w vs w' H Hnone; simpl in H |- *.
  - injection H as _ <-. rewrite Hnone. reflexivity.
  - destruct (validators this !! Validation.validator b) as [f|]; [|discriminate].
    unfold bind.
    destruct (f _ _ _ w) as [[v|e] w1]; [|discriminate].
    destruct (predicate_results _ _ _ _ rest w1) as [[vs1 w2]|] eqn:E; [|discriminate].
    injection H as _ <-. eauto.
Qed.

Lemma validateInput_results this input validations options (w : W) vs w' :
  predicate_results dottie_get this input (default_arg options empty_object)
    validations w = Some (vs, w') ->
  validateInput dottie_get this input validations options w
  = (if forallb truthy vs then Return VUndefined
     else Throw (new_ValidationError (VArr (failures validations vs)) VUndefined),
     w').
Proof.
  intros H. unfold validateInput, bind.
  rewrite (validate_each_results _ _ _ _ _ _ _ _ H). simpl.
  pose proof (failures_nil_iff validations vs (predicate_results_length _ _ _ _ _ _ _ H)) as Hnil.
  unfold showValidationError.
  destruct (failures validations vs) as [|e es] eqn:E.
  - rewrite (proj1 Hnil eq_refl). reflexivity.
  - destruct (forallb truthy vs); [|reflexivity].
    destruct Hnil as [_ Hnil]. discriminate (Hnil eq_refl).
Qed.

(** *** [validateInput] *)


(** C6.  When the rules before it have been evaluated, a rule whose
    validator name is not in the registry makes [validateInput] throw
    [Error("Unknown validator <name>")] at once: the rules after it are not
    evaluated, and the thrown value is a plain [Error], not a
    [ValidationError]. *)
Theorem validateInput_unknown_validator_fails_fast
    this input before validation after options (w : W) vs w' :
  predicate_results dottie_get this input (default_arg options empty_object)
    before w = Some (vs, w') ->
  validators this !! Validation.validator validation = None ->
  let e := new_Error ("Unknown validator " ++ Validation.validator validation) in
  validateInput dottie_get this input (before ++ validation :: after) options w
  = (Throw e, w')
  /\ instanceof e (VFun ValidationError) = Return false
  /\ get_prop e "name" = Return (VStr "Error")
  /\ get_prop e "message"
     = Return (VStr ("Unknown validator " ++ Validation.validator validation)).
Proof.
  intros H Hnone e. split; [|repeat split].
  unfold validateInput, bind.
  rewrite (validate_each_unknown _ _ _ _ _ after [] _ _ _ H Hnone).
  reflexivity.
Qed.

(** C9.  When earlier rules have failed and a later rule's validator name
    does not resolve, the entries collected so far are dropped:
    [validateInput] throws the unknown-validator error, which has no
    [errors] property and is not a [ValidationError]. *)
Theorem validateInput_unknown_validator_discards_failures
    this input before validation after options (w : W) vs w' :
  predicate_results dottie_get this input (default_arg options empty_object)
    before w = Some (vs, w') ->
  forallb truthy vs = false ->
  validators this !! Validation.validator validation = None ->
  failures before vs <> []
  /\ exists e,
      validateInput dottie_get this input (before ++ validation :: after) options w
      = (Throw e, w')
      /\ get_prop e "errors" = Return VUndefined
      /\ instanceof e (VFun ValidationError) = Return false
      /\ forall message,
          e <> new_ValidationError (VArr (failures before vs)) message.
Proof.
  intros H Hfalse Hnone. split.
  - intros Hnil.
    apply (failures_nil_iff before vs (predicate_results_length _ _ _ _ _ _ _ H)) in Hnil.
    congruence.
  - exists (new_Error ("Unknown validator " ++ Validation.validator validation)).
    split; [|repeat split].
    + unfold validateInput, bind.
      rewrite (validate_each_unknown _ _ _ _ _ after [] _ _ _ H Hnone).
      reflexivity.
    + intros message. discriminate.
Qed.

(** C7.  Whatever [validateInput] throws, once every name resolves and no
    predicate throws, is a [ValidationError] that carries the ordered list
    of failures as [errors], 422 as [code] and ["ValidationError"] as
    [name]; the constructor sets these three fields for every argument. *)
Theorem validation_failure_carries_errors_code_and_kind
    this input validations options (w : W) vs w' e w'' :
  predicate_results dottie_get this input (default_arg options empty_object)
    validations w = Some (vs, w') ->
  validateInput dottie_get this input validations options w = (Throw e, w'') ->
  (get_prop e "errors" = Return (VArr (failures validations vs))
   /\ get_prop e "code" = Return (VNum 422)
   /\ get_prop e "name" = Return (VStr "ValidationError")
   /\ instanceof e (VFun ValidationError) = Return true)
  /\ forall errors message,
      get_prop (new_ValidationError errors message) "errors" = Return errors
      /\ get_prop (new_ValidationError errors message) "code" = Return (VNum 422)
      /\ get_prop (new_ValidationError errors message) "name"
         = Return (VStr "ValidationError").
Proof.
  intros H. rewrite (validateInput_results _ _ _ _ _ _ _ H).
  destruct (forallb truthy vs); [discriminate|].
  intros [= <- _]. repeat split.
Qed.

(** *** [handleError] *)

(** Scanning continues past the candidates that do not apply and stops at
    the first one that does. *)
Lemma find_handler_first err before handler after options :
  forall (w w1 w2 : W),
    find_handler apply_fn err before options w = (Return None, w1) ->
    handler_applies apply_fn err handler options w1 = (Return true, w2) ->
    find_handler apply_fn err (before ++ handler :: after) options w
    = (Return (Some handler), w2).
Proof.
  induction before as [|b rest IH]; simpl; intros w w1 w2 Hnone Happlies.
  - injection Hnone as <-. unfold bind. rewrite Happlies. reflexivity.
  - unfold bind in *.
    destruct (handler_applies apply_fn err b options w) as [[[|]|e] w0];
      try discriminate.
    eauto.
Qed.

Lemma find_handler_found err handlers options :
  forall (w w' : W) handler,
    find_handler apply_fn err handlers options w = (Return (Some handler), w') ->
    In handler handlers.
Proof.
  induction handlers as [|b rest IH]; simpl; intros w w' handler H.
  - discriminate.
  - unfold bind in H.
    destruct (handler_applies apply_fn err b options w) as [[[|]|e] w0];
      try discriminate.
    + injection H as -> _. left. reflexivity.
    + right. eauto.
Qed.

(** A chosen candidate is the first one that applies. *)
Lemma find_handler_inv err handlers options :
  forall (w w2 : W) handler,
    find_handler apply_fn err handlers options w = (Return (Some handler), w2) ->
    exists before after w1,
      handlers = (before ++ handler :: after)%list
      /\ find_handler apply_fn err before options w = (Return None, w1)
      /\ handler_applies apply_fn err handler options w1 = (Return true, w2).
Proof.
  induction handlers as [|b rest IH]; simpl; intros w w2 handler H.
  - discriminate.
  - unfold bind in H.
    destruct (handler_applies apply_fn err b options w) as [[[|]|e] w0] eqn:E;
      try discriminate.
    + injection H as -> ->. exists [], rest, w. auto.
    + destruct (IH _ _ _ H) as (before & after & w1 & -> & Hnone & Happlies).
      exists (b :: before), after, w1. repeat split; [|assumption].
      simpl. unfold bind. rewrite E. assumption.
Qed.

(** A candidate whose [error] is a function is chosen only when [err.name]
    is that very function: [typeof] of a function is not ['object'], so
    [instanceof] is never evaluated for it. *)
Lemma handler_applies_constructor err handlerCandidate options (w : W) c name :
  Handler.error handlerCandidate = VFun c ->
  get_prop err "name" = Return name ->
  strict_eq (VFun c) name = false ->
  handler_applies apply_fn err handlerCandidate options w = (Return false, w).
Proof.
  intros Herror Hname Hneq. unfold handler_applies, bind, lift.
  rewrite Hname, Herror, Hneq. reflexivity.
Qed.

(** The operator on a right-hand side that is [null] or an object
    without a [Symbol.hasInstance] method: it throws. *)
Lemma instanceof_op_not_callable err error (w : W) :
  String.eqb (typeof error) "object" = true ->
  strict_eq (read error "@@hasInstance") VUndefined
  || strict_eq (read error "@@hasInstance") VNull = true ->
  instanceof_op apply_fn err error w
  = (Throw (new_TypeError "Right-hand side of 'instanceof' is not callable"), w).
Proof.
  intros Hobject Hmethod.
  destruct error; try discriminate; try reflexivity.
  unfold read in Hmethod. simpl in Hmethod. simpl.
  destruct (lookup_prop "@@hasInstance" props); try discriminate; reflexivity.
Qed.

(** A candidate whose [error] is such an object, and is not [err.name]
    itself, makes the scan throw. *)
Lemma handler_applies_object_reference err handlerCandidate options (w : W) name :
  String.eqb (typeof (Handler.error handlerCandidate)) "object" = true ->
  strict_eq (read (Handler.error handlerCandidate) "@@hasInstance") VUndefined
  || strict_eq (read (Handler.error handlerCandidate) "@@hasInstance") VNull
  = true ->
  get_prop err "name" = Return name ->
  strict_eq (Handler.error handlerCandidate) name = false ->
  exists e, handler_applies apply_fn err handlerCandidate options w = (Throw e, w).
Proof.
  intros Hobject Hmethod Hname Hneq. unfold handler_applies, bind, lift.
  rewrite Hname, Hneq, Hobject.
  rewrite (instanceof_op_not_callable _ _ w Hobject Hmethod). eauto.
Qed.

(** A candidate whose [error] is a kind name applies exactly when the name
    is [err.name], [options.code] is undefined or is [err.code], and
    [options.block] is undefined or yields a truthy value. *)
Lemma handler_applies_by_name chain props handlerCandidate options (w : W) kind :
  Handler.error handlerCandidate = VStr kind ->
  let err := VObj chain props in
  let handlerOptions := or_else (Handler.options handlerCandidate) empty_object in
  let code := match get_prop handlerOptions "code" with Return v => v | Throw _ => VUndefined end in
  let block := match get_prop handlerOptions "block" with Return v => v | Throw _ => VUndefined end in
  handler_applies apply_fn err handlerCandidate options w
  = if strict_eq (VStr kind) (lookup_prop "name" props)
       && (strict_eq code VUndefined || strict_eq code (lookup_prop "code" props))
    then if strict_eq block VUndefined then (Return true, w)
         else match call apply_fn block [err; options] w with
              | (Return r, w') => (Return (truthy r), w')
              | (Throw e, w') => (Throw e, w')
              end
    else (Return false, w).
Proof.
  intros Herror err handlerOptions code block.
  unfold handler_applies, bind, lift, ret. rewrite Herror.
  fold handlerOptions. subst err. cbn [get_prop]. cbv beta iota.
  destruct (strict_eq (VStr kind) (lookup_prop "name" props)); [|reflexivity].
  cbn [negb andb]. cbv beta iota.
  assert (Hread : forall key, exists v, get_prop handlerOptions key = Return v).
  { intros key. unfold handlerOptions, or_else.
    destruct (Handler.options handlerCandidate); simpl; eauto.
    - destruct b; simpl; eauto.
    - destruct (n =? 0); simpl; eauto.
    - destruct (String.eqb s ""); simpl; eauto. }
  subst code block.
  destruct (Hread "code") as [code ->], (Hread "block") as [block ->].
  rewrite !typeof_undefined.
  destruct (strict_eq code VUndefined); cbn [orb negb]; cbv beta iota.
  - destruct (strict_eq block VUndefined); reflexivity.
  - destruct (strict_eq code (lookup_prop "code" props)); cbn [negb]; cbv beta iota;
      [|reflexivity].
    destruct (strict_eq block VUndefined); reflexivity.
Qed.

(** C4.  For an instance of [ValidationError], [handleError] returns the
    value of [err.errors] as it is: the result is the same for every
    handler list (also an omitted one) and no block is called. *)
Theorem handleError_returns_validation_errors err handlers options (w : W) :
  instanceof err (VFun ValidationError) = Return true ->
  exists errors,
    get_prop err "errors" = Return errors
    /\ handleError apply_fn err handlers options w = (Return errors, w).
Proof.
  intros H. destruct (instanceof_ValidationError_object _ H) as (chain & props & ->).
  exists (lookup_prop "errors" props). split; [reflexivity|].
  unfold handleError, bind, lift. rewrite H. reflexivity.
Qed.

(** X22.  For an error that is not a [ValidationError], when the
    candidates before [handler] have been tried and do not pass the three
    tests and [handler] passes them, [handleError] returns the one-element
    list holding the object with [handler]'s [path] and [message]; the
    candidates after it are not tried. *)
Theorem handleError_first_match_wins
    err before handler after options (w w1 w2 : W) :
  instanceof err (VFun ValidationError) = Return false ->
  find_handler apply_fn err before (default_arg options empty_object) w
  = (Return None, w1) ->
  handler_applies apply_fn err handler (default_arg options empty_object) w1
  = (Return true, w2) ->
  handleError apply_fn err (Some (before ++ handler :: after)%list) options w
  = (Return (VArr [VObj [ObjectClass]
                        [("path", VStr (Handler.path handler));
                         ("message", VStr (Handler.message handler))]]),
     w2).
Proof.
  intros Hinst Hbefore Happlies. unfold handleError, bind, lift.
  rewrite Hinst, (find_handler_first _ _ _ after _ _ _ _ Hbefore Happlies).
  reflexivity.
Qed.

(** C5, for errors other than validation errors.  For an error that is
    not a [ValidationError], when every candidate has been tried, none
    of its tests throwing, and none applies (as with an empty handler
    list), [handleError] returns [null] and does not throw; [null] is not
    the empty list, and a value returned for such an error is [null] or
    the one-element list of some candidate. *)
Theorem handleError_unhandled_sentinel err handlers options (w w' : W) :
  instanceof err (VFun ValidationError) = Return false ->
  find_handler apply_fn err handlers (default_arg options empty_object) w
  = (Return None, w') ->
  handleError apply_fn err (Some handlers) options w = (Return VNull, w')
  /\ handleError apply_fn err (Some []) options w = (Return VNull, w)
  /\ VNull <> VArr []
  /\ forall candidates v (w0 w1 : W),
      handleError apply_fn err (Some candidates) options w0 = (Return v, w1) ->
      v = VNull
      \/ exists handler,
          In handler candidates
          /\ v = VArr [VObj [ObjectClass]
                            [("path", VStr (Handler.path handler));
                             ("message", VStr (Handler.message handler))]].
Proof.
  intros Hinst Hnone. unfold handleError, bind, lift. rewrite Hinst, Hnone.
  repeat split; try discriminate.
  intros candidates v w0 w1.
  destruct (find_handler apply_fn err candidates _ w0) as [[[h|]|e] w2] eqn:E;
    intros [= <- <-]; eauto.
  right. exists h. split; [|reflexivity].
  eapply find_handler_found; eauto.
Qed.

(** *** Built-in validators *)

(** C8.  Given a value that is not a string, and options that are an
    object or omitted (anything but [null]), the [isFQDN] and [isURL]
    wrappers return [false] and do not throw; called the way
    [validateInput] calls them, with [rule.options || {}], they do so for
    every [rule.options].  The format validators modelled from the spec
    return [false] for every options value. *)
Theorem format_validators_reject_non_strings str options context (w : W) :
  String.eqb (typeof str) "string" = false ->
  strict_eq options VNull = false ->
  (isFQDN validator_isFQDN str options context w = (Return (VBool false), w)
   /\ isURL validator_isURL str options context w = (Return (VBool false), w))
  /\ (forall rule_options,
        isFQDN validator_isFQDN str (or_else rule_options empty_object) context w
        = (Return (VBool false), w)
        /\ isURL validator_isURL str (or_else rule_options empty_object) context w
           = (Return (VBool false), w))
  /\ forall predicate any_options,
      format_validator predicate str any_options context w
      = (Return (VBool false), w).
Proof.
  intros Hstr Hopts.
  assert (Hreject : forall o, strict_eq o VNull = false ->
            isFQDN validator_isFQDN str o context w = (Return (VBool false), w)
            /\ isURL validator_isURL str o context w = (Return (VBool false), w)).
  { intros o Ho.
    destruct str; try discriminate;
      destruct o; try discriminate; split; reflexivity. }
  split; [auto|]. split.
  - intros rule_options. apply Hreject, or_else_object_not_null.
  - intros predicate any_options. destruct str; try discriminate; reflexivity.
Qed.

(** C10.  [isValid] hands its value and context to [options.block] and
    returns whatever the awaited call yields; when [options] has no
    callable [block] it throws instead of returning [false]. *)
Theorem isValid_delegates_to_block val options context (w : W) :
  match get_prop options "block" with
  | Return (VFun block) =>
      isValid apply_fn val options context w
      = apply_fn block [val; default_arg context empty_object] w
  | _ => exists e, isValid apply_fn val options context w = (Throw e, w)
  end.
Proof.
  unfold isValid, bind, lift.
  destruct (get_prop options "block") as [[]|e]; simpl; eauto.
Qed.

End Properties.

(** ** The engine at work on the concrete program *)


Lemma validateInput_unknown_validator_fails_fast_witness :
  predicate_results Demo.get Demo.approval Demo.input
    (default_arg VUndefined empty_object) [Demo.rule "name" Demo.yes "m"] []
  = Some ([VBool true], ["yes"])
  /\ validators Demo.approval !! "isCool" = None
  /\ validateInput Demo.get Demo.approval Demo.input
       ([Demo.rule "name" Demo.yes "m"] ++ Demo.isCool :: Demo.validations)
       VUndefined []
     = (Throw (new_Error "Unknown validator isCool"), ["yes"]).
Proof.
  split; [reflexivity|]. split; [reflexivity|].
  destruct (validateInput_unknown_validator_fails_fast Demo.get Demo.approval
              Demo.input [Demo.rule "name" Demo.yes "m"] Demo.isCool
              Demo.validations VUndefined [] [VBool true] ["yes"]
              eq_refl eq_refl) as (H & _).
  exact H.
Defined.

Lemma validateInput_unknown_validator_discards_failures_witness :
  predicate_results Demo.get Demo.approval Demo.input
    (default_arg VUndefined empty_object) Demo.validations []
  = Some ([VBool true; VBool false; VBool false], ["isString"; "isString"; "no"])
  /\ forallb truthy [VBool true; VBool false; VBool false] = false
  /\ validators Demo.approval !! "isCool" = None
  /\ exists e,
      validateInput Demo.get Demo.approval Demo.input
        (Demo.validations ++ Demo.isCool :: []) VUndefined []
      = (Throw e, ["isString"; "isString"; "no"])
      /\ get_prop e "errors" = Return VUndefined.
Proof.
  split; [reflexivity|]. split; [reflexivity|]. split; [reflexivity|].
  destruct (validateInput_unknown_validator_discards_failures Demo.get
              Demo.approval Demo.input Demo.validations Demo.isCool []
              VUndefined [] [VBool true; VBool false; VBool false]
              ["isString"; "isString"; "no"] eq_refl eq_refl eq_refl)
    as (_ & e & H1 & H2 & _).
  exists e. split; assumption.
Defined.

Lemma validation_failure_carries_errors_code_and_kind_witness :
  let e := new_ValidationError
             (VArr [field_error "age" "must be a string too";
                    field_error "age" "is never valid"])
             VUndefined in
  predicate_results Demo.get Demo.approval Demo.input
    (default_arg VUndefined empty_object) Demo.validations []
  = Some ([VBool true; VBool false; VBool false], ["isString"; "isString"; "no"])
  /\ validateInput Demo.get Demo.approval Demo.input Demo.validations VUndefined []
     = (Throw e, ["isString"; "isString"; "no"])
  /\ get_prop e "code" = Return (VNum 422)
  /\ get_prop e "name" = Return (VStr "ValidationError").
Proof.
  intros e. split; [reflexivity|]. split; [reflexivity|].
  destruct (validation_failure_carries_errors_code_and_kind Demo.get
              Demo.approval Demo.input Demo.validations VUndefined []
              [VBool true; VBool false; VBool false]
              ["isString"; "isString"; "no"] e
              ["isString"; "isString"; "no"] eq_refl eq_refl)
    as ((_ & H1 & H2 & _) & _).
  split; assumption.
Defined.

Lemma handleError_returns_validation_errors_witness :
  instanceof Demo.validation_error (VFun ValidationError) = Return true
  /\ exists errors,
      get_prop Demo.validation_error "errors" = Return errors
      /\ handleError Demo.apply_fn Demo.validation_error None VUndefined []
         = (Return errors, []).
Proof.
  split; [reflexivity|].
  exact (handleError_returns_validation_errors Demo.apply_fn
           Demo.validation_error None VUndefined [] eq_refl).
Defined.

(** Two rules match a [TypeError] by name; the message of the first one is
    returned.  The rule before them names another kind. *)
Lemma handleError_first_match_wins_witness :
  let before := [Demo.on (VStr "MongoError") "is already taken"] in
  let first := Demo.on (VStr "TypeError") "first" in
  let second := Demo.on (VStr "TypeError") "second" in
  instanceof Demo.type_error (VFun ValidationError) = Return false
  /\ find_handler Demo.apply_fn Demo.type_error before
       (default_arg VUndefined empty_object) [] = (Return None, [])
  /\ handler_applies Demo.apply_fn Demo.type_error first
       (default_arg VUndefined empty_object) [] = (Return true, [])
  /\ handler_applies Demo.apply_fn Demo.type_error second
       (default_arg VUndefined empty_object) [] = (Return true, [])
  /\ handleError Demo.apply_fn Demo.type_error
       (Some (before ++ first :: [second])%list) VUndefined []
     = (Return (VArr [VObj [ObjectClass]
                           [("path", VStr "system"); ("message", VStr "first")]]),
        []).
Proof.
  intros before first second.
  split; [reflexivity|]. split; [reflexivity|].
  split; [reflexivity|]. split; [reflexivity|].
  exact (handleError_first_match_wins Demo.apply_fn Demo.type_error before
           first [second] VUndefined [] [] [] eq_refl eq_refl eq_refl).
Defined.

Lemma handleError_unhandled_sentinel_witness :
  let handlers := [Demo.on (VStr "MongoError") "is already taken"] in
  instanceof Demo.type_error (VFun ValidationError) = Return false
  /\ find_handler Demo.apply_fn Demo.type_error handlers
       (default_arg VUndefined empty_object) [] = (Return None, [])
  /\ handleError Demo.apply_fn Demo.type_error (Some handlers) VUndefined []
     = (Return VNull, []).
Proof.
  intros handlers. split; [reflexivity|]. split; [reflexivity|].
  destruct (handleError_unhandled_sentinel Demo.apply_fn Demo.type_error
              handlers VUndefined [] [] eq_refl eq_refl) as (H & _).
  exact H.
Defined.

(** A [ValidationError] given an empty handler list: no rule matches, and
    the result is the error's own list, not [null]; built on an empty
    list, the result is the empty list.  And three runs in which no rule
    matches and [handleError] throws: the error is [null], a rule's
    [error] is [null], a rule's block throws. *)
Lemma handleError_validation_error_not_sentinel :
  find_handler Demo.apply_fn Demo.validation_error []
    (default_arg VUndefined empty_object) [] = (Return None, [])
  /\ handleError Demo.apply_fn Demo.validation_error (Some []) VUndefined []
     = (Return (VArr [field_error "name" "must be present"]), [])
  /\ handleError Demo.apply_fn Demo.validation_error (Some []) VUndefined []
     <> (Return VNull, [])
  /\ handleError Demo.apply_fn (new_ValidationError (VArr []) VUndefined)
       (Some []) VUndefined []
     = (Return (VArr []), [])
  /\ handleError Demo.apply_fn VNull (Some [Demo.on (VStr "Error") "m"])
       VUndefined []
     = (Throw (new_TypeError "Cannot read property 'name'"), [])
  /\ handleError Demo.apply_fn Demo.type_error (Some [Demo.on VNull "m"])
       VUndefined []
     = (Throw (new_TypeError "Right-hand side of 'instanceof' is not callable"),
        [])
  /\ handleError Demo.apply_fn Demo.type_error
       (Some [Handler.Build "system" (VStr "TypeError")
                (Demo.options_with_block Demo.boom) "m"])
       VUndefined []
     = (Throw (new_Error "boom"), ["boom"]).
Proof.
  repeat split. discriminate.
Qed.

(** C2.  A rule whose [error] is the constructor [TypeError] is not
    matched by an instance of [TypeError]: [handleError] answers [null]. *)
Theorem handleError_constructor_reference_unhandled :
  let candidate := Demo.on (VFun TypeErrorClass) "m" in
  instanceof Demo.type_error (VFun TypeErrorClass) = Return true
  /\ handler_applies Demo.apply_fn Demo.type_error candidate empty_object []
     = (Return false, [])
  /\ handleError Demo.apply_fn Demo.type_error (Some [candidate]) VUndefined []
     = (Return VNull, []).
Proof.
  repeat split.
Qed.

(** C3.  Two rules match a [TypeError] by kind, the first by a reference
    to the constructor [TypeError], the second by the name ['TypeError']:
    [handleError] passes over the first and returns the message of the
    second; with the first rule alone it answers [null]. *)
Theorem handleError_kind_reference_loses_priority :
  let first := Handler.Build "system" (VFun TypeErrorClass) VUndefined "first" in
  let second := Handler.Build "system" (VStr "TypeError") VUndefined "second" in
  instanceof Demo.type_error (VFun ValidationError) = Return false
  /\ instanceof Demo.type_error (VFun TypeErrorClass) = Return true
  /\ get_prop Demo.type_error "name" = Return (VStr "TypeError")
  /\ handleError Demo.apply_fn Demo.type_error (Some [first; second]) VUndefined []
     = (Return (VArr [VObj [ObjectClass]
                           [("path", VStr "system"); ("message", VStr "second")]]),
        [])
  /\ handleError Demo.apply_fn Demo.type_error (Some [first]) VUndefined []
     = (Return VNull, []).
Proof.
  repeat split.
Qed.

(** With [null] for options, [isFQDN] and [isURL] throw on a number before
    they test its type. *)
Lemma format_validators_null_options_not_false :
  String.eqb (typeof (VNum 5)) "string" = false
  /\ isFQDN Demo.accept (VNum 5) VNull empty_object ([] : Demo.world)
     = (Throw (new_TypeError "Cannot read property 'requireTld'"), [])
  /\ isURL Demo.accept (VNum 5) VNull empty_object ([] : Demo.world)
     = (Throw (new_TypeError "Cannot read property 'protocols'"), [])
  /\ isFQDN Demo.accept (VNum 5) VNull empty_object ([] : Demo.world)
     <> (Return (VBool false), []).
Proof.
  repeat split. discriminate.
Qed.

Lemma format_validators_reject_non_strings_witness :
  String.eqb (typeof (VNum 5)) "string" = false
  /\ strict_eq VUndefined VNull = false
  /\ isFQDN Demo.accept (VNum 5) VUndefined empty_object ([] : Demo.world)
     = (Return (VBool false), [])
  /\ isURL Demo.accept (VNum 5) VUndefined empty_object ([] : Demo.world)
     = (Return (VBool false), []).
Proof.
  split; [reflexivity|]. split; [reflexivity|].
  exact (proj1 (format_validators_reject_non_strings Demo.accept Demo.accept
                  (VNum 5) VUndefined empty_object [] eq_refl eq_refl)).
Defined.

(** ** Further properties of the engine *)

Section Composition.

Context {W : Type}.
Variable apply_fn : fn -> list value -> M (W := W) value.
Variable dottie_get : value -> string -> value -> value.

(** *** Rule lists *)

Lemma predicate_results_app this input options before after :
  forall (w : W),
    predicate_results dottie_get this input options (before ++ after) w
    = match predicate_results dottie_get this input options before w with
      | Some (vs1, w1) =>
          match predicate_results dottie_get this input options after w1 with
          | Some (vs2, w2) => Some ((vs1 ++ vs2)%list, w2)
          | None => None
          end
      | None => None
      end.
Proof.
  induction before as [|b rest IH]; simpl; intros w.
  - destruct (predicate_results _ _ _ _ after w) as [[vs2 w2]|]; reflexivity.
  - destruct (validators this !! Validation.validator b) as [f|]; [|reflexivity].
    destruct (f _ _ _ w) as [[v|e] w0]; [|reflexivity].
    rewrite IH.
    destruct (predicate_results _ _ _ _ rest w0) as [[vs1 w1]|]; [|reflexivity].
    destruct (predicate_results _ _ _ _ after w1) as [[vs2 w2]|]; reflexivity.
Qed.

Lemma failures_app before after :
  forall vs1 vs2,
    length vs1 = length before ->
    failures (before ++ after) (vs1 ++ vs2)
    = (failures before vs1 ++ failures after vs2)%list.
Proof.
  induction before as [|b rest IH]; intros [|v vs1] vs2 Hlen; try discriminate.
  - reflexivity.
  - simpl app. rewrite !failures_cons, IH by (simpl in Hlen; lia).
    rewrite app_assoc. reflexivity.
Qed.

Lemma failures_sublist validations :
  forall vs,
    sublist (failures validations vs)
      (map (fun r => field_error (Validation.path r) (Validation.message r))
           validations).
Proof.
  induction validations as [|r rest IH]; intros [|v vs].
  - constructor.
  - constructor.
  - unfold failures. simpl. apply sublist_nil_l.
  - rewrite failures_cons. simpl map.
    destruct (truthy v); simpl.
    + apply sublist_cons. apply IH.
    + apply sublist_skip. apply IH.
Qed.

(** The loop stops at a predicate that throws, with what it threw. *)
Lemma validate_each_throw this input options before validation after :
  forall errors (w : W) vs w1 (f : validator) e w2,
    predicate_results dottie_get this input options before w = Some (vs, w1) ->
    validators this !! Validation.validator validation = Some f ->
    f (dottie_get input (Validation.path validation) VNull)
      (or_else (Validation.options validation) empty_object)
      (or_else options empty_object) w1 = (Throw e, w2) ->
    validate_each dottie_get this input options
      (before ++ validation :: after) errors w
    = (Throw e, w2).
Proof.
  induction before as [|b rest IH]; intros errors w vs w1 f e w2 H Hf Hthrow;
    simpl in H |- *.
  - injection H as _ <-. rewrite Hf. unfold bind. rewrite Hthrow. reflexivity.
  - destruct (validators this !! Validation.validator b) as [g|]; [|discriminate].
    unfold bind.
    destruct (g _ _ _ w) as [[v|e0] w0]; [|discriminate].
    destruct (predicate_results _ _ _ _ rest w0) as [[vs0 w3]|] eqn:E; [|discriminate].
    injection H as _ <-. eauto.
Qed.

(** X1.  A predicate that throws ends the run: [validateInput] throws the
    very value the predicate threw, the failures collected so far are not
    reported, and the rules after it are not evaluated. *)
Theorem validateInput_predicate_throw_propagates
    this input before validation after options (w : W) vs w1 (f : validator) e w2 :
  predicate_results dottie_get this input (default_arg options empty_object)
    before w = Some (vs, w1) ->
  validators this !! Validation.validator validation = Some f ->
  f (dottie_get input (Validation.path validation) VNull)
    (or_else (Validation.options validation) empty_object)
    (or_else (default_arg options empty_object) empty_object) w1 = (Throw e, w2) ->
  validateInput dottie_get this input (before ++ validation :: after) options w
  = (Throw e, w2).
Proof.
  intros H Hf Hthrow. unfold validateInput, bind.
  rewrite (validate_each_throw _ _ _ _ _ after [] _ _ _ _ _ _ H Hf Hthrow).
  reflexivity.
Qed.

(** X2.  Validating against two rule lists joined end to end reports the
    failures of the first list followed by those of the second, the second
    list being evaluated in the world the first one leaves. *)
Theorem validateInput_app
    this input before after options (w : W) vs1 w1 vs2 w2 :
  predicate_results dottie_get this input (default_arg options empty_object)
    before w = Some (vs1, w1) ->
  predicate_results dottie_get this input (default_arg options empty_object)
    after w1 = Some (vs2, w2) ->
  validateInput dottie_get this input (before ++ after) options w
  = (if forallb truthy vs1 && forallb truthy vs2 then Return VUndefined
     else Throw (new_ValidationError
                   (VArr (failures before vs1 ++ failures after vs2)) VUndefined),
     w2).
Proof.
  intros H1 H2.
  rewrite (validateInput_results dottie_get this input (before ++ after) options
             w (vs1 ++ vs2) w2).
  - rewrite forallb_app, failures_app; [reflexivity|].
    eapply predicate_results_length; eauto.
  - rewrite predicate_results_app, H1, H2. reflexivity.
Qed.

(** X4.  Every entry of a thrown [ValidationError] is the [{path, message}]
    of a rule of the list, and the entries follow the order of the rules:
    the [errors] array is a non-empty subsequence of the rules' entries. *)
Theorem validateInput_errors_come_from_rules
    this input validations options (w : W) vs w' e w'' :
  predicate_results dottie_get this input (default_arg options empty_object)
    validations w = Some (vs, w') ->
  validateInput dottie_get this input validations options w = (Throw e, w'') ->
  exists errors,
    get_prop e "errors" = Return (VArr errors)
    /\ errors <> []
    /\ sublist errors
         (map (fun r => field_error (Validation.path r) (Validation.message r))
              validations).
Proof.
  intros H. rewrite (validateInput_results _ _ _ _ _ _ _ _ H).
  destruct (forallb truthy vs) eqn:E; [discriminate|].
  intros [= <- _]. exists (failures validations vs).
  split; [reflexivity|]. split; [|apply failures_sublist].
  intros Hnil.
  apply (failures_nil_iff validations vs
           (predicate_results_length _ _ _ _ _ _ _ _ H)) in Hnil.
  congruence.
Qed.

(** X5.  What [validateInput] throws on a validation failure, given back
    to [handleError], yields the list of failures, for every handler list
    and context, without calling any block. *)
Theorem handleError_after_validateInput
    this input validations options (w : W) vs w' e w''
    handlers handler_options (w0 : W) :
  predicate_results dottie_get this input (default_arg options empty_object)
    validations w = Some (vs, w') ->
  validateInput dottie_get this input validations options w = (Throw e, w'') ->
  handleError apply_fn e handlers handler_options w0
  = (Return (VArr (failures validations vs)), w0).
Proof.
  intros H. rewrite (validateInput_results _ _ _ _ _ _ _ _ H).
  destruct (forallb truthy vs); [discriminate|].
  intros [= <- _]. reflexivity.
Qed.

End Composition.

Section Handlers.

Context {W : Type}.
Variable apply_fn : fn -> list value -> M (W := W) value.

Lemma get_prop_read v key :
  strict_eq v VUndefined = false ->
  strict_eq v VNull = false ->
  get_prop v key = Return (read v key).
Proof.
  destruct v; try discriminate; reflexivity.
Qed.

Lemma or_else_object_readable v key :
  get_prop (or_else v empty_object) key
  = Return (read (or_else v empty_object) key).
Proof.
  apply get_prop_read.
  - unfold or_else. destruct (truthy v) eqn:E; [|reflexivity].
    destruct v; try reflexivity; discriminate.
  - apply or_else_object_not_null.
Qed.

(** The scan stops at a candidate whose tests throw. *)
Lemma find_handler_throw err before handler after options :
  forall (w w1 w2 : W) e,
    find_handler apply_fn err before options w = (Return None, w1) ->
    handler_applies apply_fn err handler options w1 = (Throw e, w2) ->
    find_handler apply_fn err (before ++ handler :: after) options w
    = (Throw e, w2).
Proof.
  induction before as [|b rest IH]; simpl; intros w w1 w2 e Hnone Hthrow.
  - injection Hnone as <-. unfold bind. rewrite Hthrow. reflexivity.
  - unfold bind in *.
    destruct (handler_applies apply_fn err b options w) as [[[|]|e0] w0];
      try discriminate.
    eauto.
Qed.

(** The name and code tests of a candidate, when they reject it, do so
    without a call. *)
Lemma handler_applies_rejected err handlerCandidate options (w : W) :
  strict_eq err VUndefined = false ->
  strict_eq err VNull = false ->
  (let error := Handler.error handlerCandidate in
   let code := read (or_else (Handler.options handlerCandidate) empty_object) "code" in
   negb (String.eqb (typeof error) "object")
   && (negb (strict_eq error (read err "name"))
       || negb (strict_eq code VUndefined)
          && negb (strict_eq code (read err "code")))) = true ->
  handler_applies apply_fn err handlerCandidate options w = (Return false, w).
Proof.
  intros Hu Hn. cbv zeta. intros H.
  apply andb_prop in H as [Hobject H].
  unfold handler_applies, bind, lift, ret.
  rewrite (get_prop_read err "name" Hu Hn), (get_prop_read err "code" Hu Hn).
  rewrite (or_else_object_readable _ "code").
  rewrite typeof_undefined.
  apply negb_true_iff in Hobject. rewrite Hobject.
  destruct (strict_eq (Handler.error handlerCandidate) (read err "name"));
    simpl in H |- *; [|reflexivity].
  apply andb_prop in H as [H1 H2].
  apply negb_true_iff in H1, H2. rewrite H1. simpl. rewrite H2. reflexivity.
Qed.

(** X6.  The block of a rule is called only after its name and code tests
    pass: when every rule is rejected by one of the two, [handleError]
    answers [null] and leaves the world as it was, whatever blocks the
    rules carry. *)
Theorem handleError_rejects_before_block err handlers options (w : W) :
  instanceof err (VFun ValidationError) = Return false ->
  strict_eq err VUndefined = false ->
  strict_eq err VNull = false ->
  forallb
    (fun h =>
       let error := Handler.error h in
       let code := read (or_else (Handler.options h) empty_object) "code" in
       negb (String.eqb (typeof error) "object")
       && (negb (strict_eq error (read err "name"))
           || negb (strict_eq code VUndefined)
              && negb (strict_eq code (read err "code"))))
    handlers = true ->
  handleError apply_fn err (Some handlers) options w = (Return VNull, w).
Proof.
  intros Hinst Hu Hn Hall. unfold handleError, bind, lift. rewrite Hinst.
  assert (Hnone : find_handler apply_fn err handlers
                    (default_arg options empty_object) w = (Return None, w)).
  { induction handlers as [|h rest IH]; [reflexivity|].
    simpl in Hall. apply andb_prop in Hall as [Hh Hrest].
    simpl. unfold bind.
    rewrite (handler_applies_rejected err h _ w Hu Hn Hh). auto. }
  rewrite Hnone. reflexivity.
Qed.

(** X7.  An error that is [null] or [undefined] is unhandled by an empty
    handler list, and makes [handleError] throw a [TypeError] as soon as
    there is a rule to try, before any block is called. *)
Theorem handleError_null_error err handlerCandidate rest options (w : W) :
  strict_eq err VNull || strict_eq err VUndefined = true ->
  handleError apply_fn err (Some []) options w = (Return VNull, w)
  /\ exists e,
      handleError apply_fn err (Some (handlerCandidate :: rest)) options w
      = (Throw e, w)
      /\ get_prop e "name" = Return (VStr "TypeError").
Proof.
  intros H. destruct err; try discriminate; split; try reflexivity;
    eexists; split; reflexivity.
Qed.

(** X8.  A rule whose [error] is [null], or an object that has no
    [Symbol.hasInstance] method, and that is not [err.name] itself, makes
    [handleError] throw a [TypeError] once the scan reaches it; the rules
    after it are not tried. *)
Theorem handleError_object_kind_throws
    err before handler after options (w w1 : W) :
  instanceof err (VFun ValidationError) = Return false ->
  strict_eq err VUndefined = false ->
  strict_eq err VNull = false ->
  find_handler apply_fn err before (default_arg options empty_object) w
  = (Return None, w1) ->
  String.eqb (typeof (Handler.error handler)) "object" = true ->
  strict_eq (read (Handler.error handler) "@@hasInstance") VUndefined
  || strict_eq (read (Handler.error handler) "@@hasInstance") VNull = true ->
  strict_eq (Handler.error handler) (read err "name") = false ->
  exists e,
    handleError apply_fn err (Some (before ++ handler :: after)%list) options w
    = (Throw e, w1)
    /\ get_prop e "name" = Return (VStr "TypeError").
Proof.
  intros Hinst Hu Hn Hbefore Hobject Hmethod Hneq.
  exists (new_TypeError "Right-hand side of 'instanceof' is not callable").
  split; [|reflexivity].
  assert (Hthrow : handler_applies apply_fn err handler
                     (default_arg options empty_object) w1
                   = (Throw (new_TypeError
                               "Right-hand side of 'instanceof' is not callable"),
                      w1)).
  { unfold handler_applies, bind, lift.
    rewrite (get_prop_read err "name" Hu Hn), Hneq, Hobject.
    rewrite (instanceof_op_not_callable apply_fn _ _ w1 Hobject Hmethod).
    reflexivity. }
  unfold handleError, bind, lift. rewrite Hinst.
  rewrite (find_handler_throw err before handler after _ w w1 w1 _ Hbefore Hthrow).
  reflexivity.
Qed.

(** X9.  A rule with a kind name and no block applies exactly when the
    name is [err.name] and its code, if it has one, is [err.code];
    deciding so calls nothing. *)
Theorem handler_applies_without_block err handlerCandidate options (w : W) kind :
  strict_eq err VUndefined = false ->
  strict_eq err VNull = false ->
  Handler.error handlerCandidate = VStr kind ->
  let handlerOptions := or_else (Handler.options handlerCandidate) empty_object in
  strict_eq (read handlerOptions "block") VUndefined = true ->
  handler_applies apply_fn err handlerCandidate options w
  = (Return (strict_eq (VStr kind) (read err "name")
             && (strict_eq (read handlerOptions "code") VUndefined
                 || strict_eq (read handlerOptions "code") (read err "code"))),
     w).
Proof.
  intros Hu Hn Herror handlerOptions Hblock.
  unfold handler_applies, bind, lift, ret. fold handlerOptions.
  rewrite (get_prop_read err "name" Hu Hn), (get_prop_read err "code" Hu Hn).
  unfold handlerOptions.
  rewrite (or_else_object_readable _ "code"), (or_else_object_readable _ "block").
  fold handlerOptions. rewrite !typeof_undefined, Herror, Hblock.
  destruct (strict_eq (VStr kind) (read err "name")); simpl; [|reflexivity].
  destruct (strict_eq (read handlerOptions "code") VUndefined); simpl;
    [reflexivity|].
  destruct (strict_eq (read handlerOptions "code") (read err "code")); reflexivity.
Qed.

(** X10.  A rule that only names a kind catches every error object of
    that name, whatever the error's code and whatever follows the rule in
    the list: [handleError] returns that rule's entry and calls nothing. *)
Theorem handleError_named_rule_catches
    chain props kind path message rest options (w : W) :
  instanceof (VObj chain props) (VFun ValidationError) = Return false ->
  strict_eq (VStr kind) (lookup_prop "name" props) = true ->
  handleError apply_fn (VObj chain props)
    (Some (Handler.Build path (VStr kind) VUndefined message :: rest)) options w
  = (Return (VArr [field_error path message]), w).
Proof.
  intros Hinst Hname. unfold handleError, bind, lift. rewrite Hinst.
  cbn [find_handler]. unfold bind.
  rewrite (handler_applies_by_name apply_fn chain props
             (Handler.Build path (VStr kind) VUndefined message) _ w kind eq_refl).
  rewrite Hname. reflexivity.
Qed.

End Handlers.

Section Registry.

Context {W : Type}.
Variable apply_fn : fn -> list value -> M (W := W) value.
Variable dottie_get : value -> string -> value -> value.
Variable validator_isFQDN : string -> value -> outcome value.
Variable validator_isURL : string -> value -> outcome value.
Variable Object_prototype : gmap string (validator (W := W)).
Variable require_validator : string -> validator (W := W).
Variable console_log : list value -> W -> W.

Local Abbreviation fresh :=
  (new_Approval apply_fn validator_isFQDN validator_isURL Object_prototype
     require_validator).

(** *** Registering a validator *)

Lemma validate_each_set_validator_other this name (fn : validator) input options
    validations :
  forallb (fun r => negb (String.eqb (Validation.validator r) name)) validations
  = true ->
  forall errors (w : W),
    validate_each dottie_get (set_validator this name fn) input options
      validations errors w
    = validate_each dottie_get this input options validations errors w.
Proof.
  induction validations as [|r rest IH]; intros Hall errors w; [reflexivity|].
  simpl in Hall. apply andb_prop in Hall as [Hr Hrest].
  apply negb_true_iff, String.eqb_neq in Hr.
  simpl. rewrite lookup_insert_ne by congruence.
  destruct (validators this !! Validation.validator r) as [f|]; [|reflexivity].
  unfold bind. destruct (f _ _ _ w) as [[v|e] w0]; [|reflexivity].
  apply IH, Hrest.
Qed.

(** X11.  Registering a validator under a name changes nothing for rule
    lists that do not use that name. *)
Theorem set_validator_other_rules this name (fn : validator) input validations
    options (w : W) :
  forallb (fun r => negb (String.eqb (Validation.validator r) name)) validations
  = true ->
  validateInput dottie_get (set_validator this name fn) input validations options w
  = validateInput dottie_get this input validations options w.
Proof.
  intros Hall. unfold validateInput, bind.
  rewrite (validate_each_set_validator_other this name fn input _ validations Hall).
  reflexivity.
Qed.

(** X12.  After [approval.validators[name] = fn], a rule that names [name]
    is decided by [fn], called with the value at the rule's path ([null]
    when there is none), the rule's options or [{}], and the context or
    [{}]; this holds whether the name was unknown or taken before. *)
Theorem set_validator_decides this name (fn : validator) input path rule_options
    message options (w : W) v w' :
  fn (dottie_get input path VNull) (or_else rule_options empty_object)
     (or_else (default_arg options empty_object) empty_object) w = (Return v, w') ->
  validateInput dottie_get (set_validator this name fn) input
    [Validation.Build path name rule_options message] options w
  = (if truthy v then Return VUndefined
     else Throw (new_ValidationError (VArr [field_error path message]) VUndefined),
     w').
Proof.
  intros Hfn. unfold validateInput, bind. simpl.
  rewrite lookup_insert_eq. unfold bind. rewrite Hfn.
  destruct (truthy v); reflexivity.
Qed.

(** *** The registry of a new [Approval] *)

Lemma new_Approval_isFQDN :
  validators fresh !! "isFQDN" = Some (isFQDN validator_isFQDN).
Proof. apply lookup_union_Some_l. reflexivity. Qed.

Lemma new_Approval_isURL :
  validators fresh !! "isURL" = Some (isURL validator_isURL).
Proof. apply lookup_union_Some_l. reflexivity. Qed.

Lemma new_Approval_isValid :
  validators fresh !! "isValid" = Some (isValid apply_fn).
Proof. apply lookup_union_Some_l. reflexivity. Qed.

(** *** Built-in validators under [validateInput] *)

(** X14.  Under a new [Approval], an [isValid] rule hands its block the
    value at the rule's path ([null] when there is none) and the run
    context or [{}]; the rule passes exactly when the block's result is
    truthy. *)
Theorem validateInput_isValid_rule input path rule_options message options
    (w : W) block v w' :
  get_prop (or_else rule_options empty_object) "block" = Return (VFun block) ->
  apply_fn block
    [dottie_get input path VNull;
     or_else (default_arg options empty_object) empty_object] w = (Return v, w') ->
  validateInput dottie_get fresh input
    [Validation.Build path "isValid" rule_options message] options w
  = (if truthy v then Return VUndefined
     else Throw (new_ValidationError (VArr [field_error path message]) VUndefined),
     w').
Proof.
  intros Hblock Hcall. unfold validateInput, bind.
  cbn [validate_each Validation.validator Validation.path Validation.options
       Validation.message].
  rewrite new_Approval_isValid. unfold bind, isValid, bind, lift.
  rewrite Hblock. cbn [call].
  assert (Hctx : default_arg (or_else (default_arg options empty_object) empty_object)
                   empty_object
                 = or_else (default_arg options empty_object) empty_object).
  { unfold or_else. destruct (truthy (default_arg options empty_object)) eqn:E;
      [|reflexivity].
    destruct (default_arg options empty_object); try reflexivity; discriminate. }
  rewrite Hctx, Hcall.
  destruct (truthy v); reflexivity.
Qed.

Lemma wrappers_reject_non_string str options context (w : W) :
  String.eqb (typeof str) "string" = false ->
  strict_eq options VNull = false ->
  isFQDN validator_isFQDN str options context w = (Return (VBool false), w)
  /\ isURL validator_isURL str options context w = (Return (VBool false), w).
Proof.
  intros Hstr Hopts.
  destruct str; try discriminate;
    destruct options; try discriminate; split; reflexivity.
Qed.

(** X15.  Under a new [Approval], an [isFQDN] or [isURL] rule on a field
    that does not hold a string (a missing field reads [null]) is a
    validation failure: [validateInput] throws a [ValidationError] with
    that rule's entry, for every rule options value. *)
Theorem validateInput_format_rule_non_string name input path rule_options
    message options (w : W) :
  String.eqb name "isFQDN" || String.eqb name "isURL" = true ->
  String.eqb (typeof (dottie_get input path VNull)) "string" = false ->
  validateInput dottie_get fresh input
    [Validation.Build path name rule_options message] options w
  = (Throw (new_ValidationError (VArr [field_error path message]) VUndefined), w).
Proof.
  intros Hname Hstr.
  destruct (wrappers_reject_non_string (dottie_get input path VNull)
              (or_else rule_options empty_object)
              (or_else (default_arg options empty_object) empty_object) w
              Hstr (or_else_object_not_null rule_options)) as [HFQDN HURL].
  unfold validateInput, bind.
  cbn [validate_each Validation.validator Validation.path Validation.options
       Validation.message].
  apply orb_prop in Hname as [Hname|Hname]; apply String.eqb_eq in Hname; subst name.
  - rewrite new_Approval_isFQDN. unfold bind. rewrite HFQDN. reflexivity.
  - rewrite new_Approval_isURL. unfold bind. rewrite HURL. reflexivity.
Qed.

(** X16.  With [null] for options the three wrappers throw a [TypeError]
    for every value, a string or not. *)
Theorem wrappers_null_options_throw val context (w : W) :
  exists e1 e2 e3,
    isFQDN validator_isFQDN val VNull context w = (Throw e1, w)
    /\ isURL validator_isURL val VNull context w = (Throw e2, w)
    /\ isValid apply_fn val VNull context w = (Throw e3, w)
    /\ get_prop e1 "name" = Return (VStr "TypeError")
    /\ get_prop e2 "name" = Return (VStr "TypeError")
    /\ get_prop e3 "name" = Return (VStr "TypeError").
Proof.
  do 3 eexists. repeat split.
Qed.

End Registry.

Section Defaults.

Context {W : Type}.
Variable validator_isFQDN : string -> value -> outcome value.
Variable validator_isURL : string -> value -> outcome value.

Lemma strict_eq_undefined v : strict_eq v VUndefined = true -> v = VUndefined.
Proof. destruct v; try discriminate; reflexivity. Qed.

(** X17.  Given a string and options that set none of the seven option
    keys (omitted options, [{}], a number), [isFQDN] and [isURL] call the
    [validator] package with the defaults: top-level domain, protocol and
    valid protocol required, protocols [http], [https] and [ftp],
    underscores, trailing dot and protocol-relative URLs refused. *)
Theorem format_validators_defaults s options context (w : W) :
  strict_eq options VNull = false ->
  forallb
    (fun key => strict_eq (read (default_arg options empty_object) key) VUndefined)
    ["protocols"; "requireTld"; "requireProtocol"; "requireValidProtocol";
     "allowUnderscores"; "allowTrailingDot"; "allowProtocolRelativeUrls"]
  = true ->
  isFQDN validator_isFQDN (VStr s) options context w
  = (validator_isFQDN s
       (VObj [ObjectClass]
             [("require_tld", VBool true);
              ("allow_underscores", VBool false);
              ("allow_trailing_dot", VBool false)]),
     w)
  /\ isURL validator_isURL (VStr s) options context w
     = (validator_isURL s
          (VObj [ObjectClass]
                [("protocols", VArr [VStr "http"; VStr "https"; VStr "ftp"]);
                 ("require_tld", VBool true);
                 ("require_protocol", VBool true);
                 ("require_valid_protocol", VBool true);
                 ("allow_underscores", VBool false);
                 ("allow_trailing_dot", VBool false);
                 ("allow_protocol_relative_urls", VBool false)]),
        w).
Proof.
  intros Hnull Hkeys.
  assert (Hread : forall key,
             get_prop (default_arg options empty_object) key
             = Return (read (default_arg options empty_object) key)).
  { intros key. destruct options; try discriminate; reflexivity. }
  cbn [forallb] in Hkeys.
  repeat (apply andb_prop in Hkeys as [?%strict_eq_undefined Hkeys]).
  unfold isFQDN, isURL, bind, lift, ret. rewrite !Hread.
  repeat match goal with H : read _ _ = VUndefined |- _ => rewrite H; clear H end.
  split; reflexivity.
Qed.

End Defaults.

Section Example.

Context {W : Type}.
Variable apply_fn : fn -> list value -> M (W := W) value.
Variable dottie_get : value -> string -> value -> value.
Variable console_log : list value -> W -> W.

(** X18.  The example's request handler answers a body that passes every
    rule with status 200 and the body itself, and a body that fails some
    rule with status 422 and [{errors}], the list of failures; either way
    it logs the response once, after the rules have run. *)
Theorem example_middleware_responds approval validations request_body
    (w : W) vs w' :
  predicate_results dottie_get approval request_body empty_object validations w
  = Some (vs, w') ->
  example_middleware apply_fn dottie_get console_log approval validations
    request_body w
  = if forallb truthy vs
    then (Return (Ctx.Build (VNum 200) request_body),
          console_log [VStr "Response:"; request_body] w')
    else
      let body := VObj [ObjectClass] [("errors", VArr (failures validations vs))] in
      (Return (Ctx.Build (VNum 422) body),
       console_log [VStr "Response:"; body] w').
Proof.
  intros H. unfold example_middleware, try_catch, bind.
  rewrite (validateInput_results dottie_get approval request_body validations
             VUndefined w vs w' H).
  destruct (forallb truthy vs); reflexivity.
Qed.

(** X19.  When validation ends with an error that is not a
    [ValidationError] (an unknown validator, a predicate that throws), the
    example's request handler sets no response: it calls [handleError]
    without handlers, which throws a [TypeError] in place of the error. *)
Theorem example_middleware_other_errors approval validations request_body
    (w : W) e w' :
  validateInput dottie_get approval request_body validations VUndefined w
  = (Throw e, w') ->
  instanceof e (VFun ValidationError) = Return false ->
  exists e',
    example_middleware apply_fn dottie_get console_log approval validations
      request_body w = (Throw e', w')
    /\ get_prop e' "name" = Return (VStr "TypeError").
Proof.
  intros Hthrow Hinst. eexists. split.
  - unfold example_middleware, try_catch, bind. rewrite Hthrow.
    unfold handleError, bind, lift. rewrite Hinst. reflexivity.
  - reflexivity.
Qed.

End Example.

(** ** The further properties on the concrete program *)

Lemma validateInput_predicate_throw_propagates_witness :
  predicate_results Demo.get Demo.approval Demo.input
    (default_arg VUndefined empty_object) [Demo.rule "age" Demo.no "a"] []
  = Some ([VBool false], ["no"])
  /\ validators Demo.approval !! "isValid" = Some (isValid Demo.apply_fn)
  /\ isValid Demo.apply_fn (Demo.get Demo.input "name" VNull)
       (or_else (Demo.options_with_block Demo.boom) empty_object)
       (or_else (default_arg VUndefined empty_object) empty_object) ["no"]
     = (Throw (new_Error "boom"), ["no"; "boom"])
  /\ validateInput Demo.get Demo.approval Demo.input
       ([Demo.rule "age" Demo.no "a"]
        ++ Demo.rule "name" Demo.boom "b" :: Demo.validations)
       VUndefined []
     = (Throw (new_Error "boom"), ["no"; "boom"]).
Proof.
  split; [reflexivity|]. split; [reflexivity|]. split; [reflexivity|].
  exact (validateInput_predicate_throw_propagates Demo.get Demo.approval
           Demo.input [Demo.rule "age" Demo.no "a"]
           (Demo.rule "name" Demo.boom "b") Demo.validations VUndefined []
           [VBool false] ["no"] (isValid Demo.apply_fn) (new_Error "boom")
           ["no"; "boom"] eq_refl eq_refl eq_refl).
Defined.

Lemma validateInput_app_witness :
  predicate_results Demo.get Demo.approval Demo.input
    (default_arg VUndefined empty_object) [Demo.rule "age" Demo.isString "first"] []
  = Some ([VBool false], ["isString"])
  /\ predicate_results Demo.get Demo.approval Demo.input
       (default_arg VUndefined empty_object) Demo.validations ["isString"]
     = Some ([VBool true; VBool false; VBool false],
             ["isString"; "isString"; "isString"; "no"])
  /\ validateInput Demo.get Demo.approval Demo.input
       ([Demo.rule "age" Demo.isString "first"] ++ Demo.validations) VUndefined []
     = (Throw (new_ValidationError
                 (VArr [field_error "age" "first";
                        field_error "age" "must be a string too";
                        field_error "age" "is never valid"])
                 VUndefined),
        ["isString"; "isString"; "isString"; "no"]).
Proof.
  split; [reflexivity|]. split; [reflexivity|].
  exact (validateInput_app Demo.get Demo.approval Demo.input
           [Demo.rule "age" Demo.isString "first"] Demo.validations VUndefined []
           [VBool false] ["isString"]
           [VBool true; VBool false; VBool false]
           ["isString"; "isString"; "isString"; "no"] eq_refl eq_refl).
Defined.

Lemma validateInput_errors_come_from_rules_witness :
  let e := new_ValidationError
             (VArr [field_error "age" "must be a string too";
                    field_error "age" "is never valid"])
             VUndefined in
  predicate_results Demo.get Demo.approval Demo.input
    (default_arg VUndefined empty_object) Demo.validations []
  = Some ([VBool true; VBool false; VBool false], ["isString"; "isString"; "no"])
  /\ validateInput Demo.get Demo.approval Demo.input Demo.validations VUndefined []
     = (Throw e, ["isString"; "isString"; "no"])
  /\ exists errors,
      get_prop e "errors" = Return (VArr errors)
      /\ errors <> []
      /\ sublist errors
           (map (fun r => field_error (Validation.path r) (Validation.message r))
                Demo.validations).
Proof.
  intros e. split; [reflexivity|]. split; [reflexivity|].
  exact (validateInput_errors_come_from_rules Demo.get Demo.approval Demo.input
           Demo.validations VUndefined []
           [VBool true; VBool false; VBool false]
           ["isString"; "isString"; "no"] e ["isString"; "isString"; "no"]
           eq_refl eq_refl).
Defined.

Lemma handleError_after_validateInput_witness :
  let e := new_ValidationError
             (VArr [field_error "age" "must be a string too";
                    field_error "age" "is never valid"])
             VUndefined in
  predicate_results Demo.get Demo.approval Demo.input
    (default_arg VUndefined empty_object) Demo.validations []
  = Some ([VBool true; VBool false; VBool false], ["isString"; "isString"; "no"])
  /\ validateInput Demo.get Demo.approval Demo.input Demo.validations VUndefined []
     = (Throw e, ["isString"; "isString"; "no"])
  /\ handleError Demo.apply_fn e None VUndefined ["isString"; "isString"; "no"]
     = (Return (VArr [field_error "age" "must be a string too";
                      field_error "age" "is never valid"]),
        ["isString"; "isString"; "no"]).
Proof.
  intros e. split; [reflexivity|]. split; [reflexivity|].
  exact (handleError_after_validateInput Demo.apply_fn Demo.get Demo.approval
           Demo.input Demo.validations VUndefined []
           [VBool true; VBool false; VBool false]
           ["isString"; "isString"; "no"] e ["isString"; "isString"; "no"]
           None VUndefined ["isString"; "isString"; "no"] eq_refl eq_refl).
Defined.

(** Three rules carrying a block that throws: one names another kind, one
    names the kind but asks for a code the error does not have, one refers
    to the constructor.  None of the blocks is called. *)
Lemma handleError_rejects_before_block_witness :
  let guarded code :=
    VObj [ObjectClass] [("code", code); ("block", Demo.boom)] in
  let handlers :=
    [Handler.Build "a" (VStr "MongoError") (guarded (VNum 11000)) "taken";
     Handler.Build "b" (VStr "TypeError") (guarded (VNum 500)) "server";
     Handler.Build "c" (VFun TypeErrorClass) (guarded VUndefined) "type"] in
  instanceof Demo.type_error (VFun ValidationError) = Return false
  /\ strict_eq Demo.type_error VUndefined = false
  /\ strict_eq Demo.type_error VNull = false
  /\ handleError Demo.apply_fn Demo.type_error (Some handlers) VUndefined []
     = (Return VNull, []).
Proof.
  intros guarded handlers.
  split; [reflexivity|]. split; [reflexivity|]. split; [reflexivity|].
  exact (handleError_rejects_before_block Demo.apply_fn Demo.type_error handlers
           VUndefined [] eq_refl eq_refl eq_refl eq_refl).
Defined.

Lemma handleError_null_error_witness :
  strict_eq VNull VNull || strict_eq VNull VUndefined = true
  /\ handleError Demo.apply_fn VNull (Some []) VUndefined [] = (Return VNull, [])
  /\ exists e,
      handleError Demo.apply_fn VNull
        (Some [Demo.on (VStr "Error") "m"]) VUndefined [] = (Throw e, [])
      /\ get_prop e "name" = Return (VStr "TypeError").
Proof.
  split; [reflexivity|].
  exact (handleError_null_error Demo.apply_fn VNull (Demo.on (VStr "Error") "m")
           [] VUndefined [] eq_refl).
Defined.

Lemma handleError_object_kind_throws_witness :
  let before := [Demo.on (VStr "MongoError") "is already taken"] in
  let handler := Demo.on VNull "m" in
  instanceof Demo.type_error (VFun ValidationError) = Return false
  /\ find_handler Demo.apply_fn Demo.type_error before
       (default_arg VUndefined empty_object) [] = (Return None, [])
  /\ String.eqb (typeof (Handler.error handler)) "object" = true
  /\ strict_eq (read (Handler.error handler) "@@hasInstance") VUndefined
     || strict_eq (read (Handler.error handler) "@@hasInstance") VNull = true
  /\ strict_eq (Handler.error handler) (read Demo.type_error "name") = false
  /\ exists e,
      handleError Demo.apply_fn Demo.type_error
        (Some (before ++ handler :: [Demo.on (VStr "TypeError") "n"])%list)
        VUndefined []
      = (Throw e, [])
      /\ get_prop e "name" = Return (VStr "TypeError").
Proof.
  intros before handler.
  split; [reflexivity|]. split; [reflexivity|].
  split; [reflexivity|]. split; [reflexivity|]. split; [reflexivity|].
  exact (handleError_object_kind_throws Demo.apply_fn Demo.type_error before
           handler [Demo.on (VStr "TypeError") "n"] VUndefined [] []
           eq_refl eq_refl eq_refl eq_refl eq_refl eq_refl eq_refl).
Defined.

(** [{name: 'MongoError', code: 11000}] against a rule for that name and
    code. *)
Lemma handler_applies_without_block_witness :
  let err :=
    VObj [ErrorClass; ObjectClass]
         [("name", VStr "MongoError"); ("code", VNum 11000)] in
  let handler :=
    Handler.Build "email" (VStr "MongoError")
      (VObj [ObjectClass] [("code", VNum 11000)]) "is already taken" in
  strict_eq err VUndefined = false
  /\ strict_eq err VNull = false
  /\ strict_eq (read (or_else (Handler.options handler) empty_object) "block")
       VUndefined = true
  /\ handler_applies Demo.apply_fn err handler empty_object []
     = (Return true, []).
Proof.
  intros err handler.
  split; [reflexivity|]. split; [reflexivity|]. split; [reflexivity|].
  exact (handler_applies_without_block Demo.apply_fn err handler empty_object []
           "MongoError" eq_refl eq_refl eq_refl eq_refl).
Defined.

Lemma handleError_named_rule_catches_witness :
  instanceof (new_Error "something went wrong") (VFun ValidationError)
  = Return false
  /\ strict_eq (VStr "Error") (VStr "Error") = true
  /\ handleError Demo.apply_fn (new_Error "something went wrong")
       (Some [Handler.Build "system" (VStr "Error") VUndefined "fake error"])
       VUndefined []
     = (Return (VArr [field_error "system" "fake error"]), []).
Proof.
  split; [reflexivity|]. split; [reflexivity|].
  exact (handleError_named_rule_catches Demo.apply_fn [ErrorClass; ObjectClass]
           [("message", VStr "something went wrong"); ("name", VStr "Error")]
           "Error" "system" "fake error" [] VUndefined [] eq_refl eq_refl).
Defined.

Lemma set_validator_other_rules_witness :
  forallb (fun r => negb (String.eqb (Validation.validator r) "isCool"))
    Demo.validations = true
  /\ validateInput Demo.get (set_validator Demo.approval "isCool" Demo.cool)
       Demo.input Demo.validations VUndefined []
     = validateInput Demo.get Demo.approval Demo.input Demo.validations
         VUndefined [].
Proof.
  split; [reflexivity|].
  exact (set_validator_other_rules Demo.get Demo.approval "isCool" Demo.cool
           Demo.input Demo.validations VUndefined [] eq_refl).
Defined.

Lemma set_validator_decides_witness :
  Demo.cool (Demo.get Demo.input "name" VNull)
    (or_else VUndefined empty_object)
    (or_else (default_arg VUndefined empty_object) empty_object) []
  = (Return (VBool false), [])
  /\ validateInput Demo.get (set_validator Demo.approval "isCool" Demo.cool)
       Demo.input [Validation.Build "name" "isCool" VUndefined "must be cool"]
       VUndefined []
     = (Throw (new_ValidationError (VArr [field_error "name" "must be cool"])
                 VUndefined),
        []).
Proof.
  split; [reflexivity|].
  exact (set_validator_decides Demo.get Demo.approval "isCool" Demo.cool
           Demo.input "name" VUndefined "must be cool" VUndefined []
           (VBool false) [] eq_refl).
Defined.

Lemma validateInput_isValid_rule_witness :
  get_prop (or_else (Demo.options_with_block Demo.isString) empty_object) "block"
  = Return Demo.isString
  /\ Demo.apply_fn (Fn "isString" 3)
       [Demo.get Demo.input "age" VNull;
        or_else (default_arg VUndefined empty_object) empty_object] []
     = (Return (VBool false), ["isString"])
  /\ validateInput Demo.get Demo.approval Demo.input
       [Demo.rule "age" Demo.isString "must be a string"] VUndefined []
     = (Throw (new_ValidationError (VArr [field_error "age" "must be a string"])
                 VUndefined),
        ["isString"]).
Proof.
  split; [reflexivity|]. split; [reflexivity|].
  exact (validateInput_isValid_rule Demo.apply_fn Demo.get Demo.accept Demo.accept
           Demo.object_prototype Demo.reject Demo.input "age"
           (Demo.options_with_block Demo.isString) "must be a string" VUndefined
           [] (Fn "isString" 3) (VBool false) ["isString"] eq_refl eq_refl).
Defined.

(** [age] holds a number and [host] is missing: both fail an [isFQDN]
    rule. *)
Lemma validateInput_format_rule_non_string_witness :
  String.eqb "isFQDN" "isFQDN" || String.eqb "isFQDN" "isURL" = true
  /\ String.eqb (typeof (Demo.get Demo.input "host" VNull)) "string" = false
  /\ validateInput Demo.get Demo.approval Demo.input
       [Validation.Build "host" "isFQDN" VUndefined "must be a domain"]
       VUndefined []
     = (Throw (new_ValidationError (VArr [field_error "host" "must be a domain"])
                 VUndefined),
        []).
Proof.
  split; [reflexivity|]. split; [reflexivity|].
  exact (validateInput_format_rule_non_string Demo.apply_fn Demo.get Demo.accept
           Demo.accept Demo.object_prototype Demo.reject "isFQDN" Demo.input
           "host" VUndefined "must be a domain" VUndefined [] eq_refl eq_refl).
Defined.

Lemma format_validators_defaults_witness :
  strict_eq (VNum 5) VNull = false
  /\ forallb
       (fun key => strict_eq (read (default_arg (VNum 5) empty_object) key) VUndefined)
       ["protocols"; "requireTld"; "requireProtocol"; "requireValidProtocol";
        "allowUnderscores"; "allowTrailingDot"; "allowProtocolRelativeUrls"]
     = true
  /\ isFQDN Demo.accept (VStr "domain.com") (VNum 5) empty_object ([] : Demo.world)
     = (Demo.accept "domain.com"
          (VObj [ObjectClass]
                [("require_tld", VBool true);
                 ("allow_underscores", VBool false);
                 ("allow_trailing_dot", VBool false)]),
        []).
Proof.
  split; [reflexivity|]. split; [reflexivity|].
  exact (proj1 (format_validators_defaults Demo.accept Demo.accept "domain.com"
                  (VNum 5) empty_object [] eq_refl eq_refl)).
Defined.

Lemma example_middleware_responds_witness :
  predicate_results Demo.get Demo.approval Demo.input empty_object
    Demo.validations []
  = Some ([VBool true; VBool false; VBool false], ["isString"; "isString"; "no"])
  /\ example_middleware Demo.apply_fn Demo.get Demo.console_log Demo.approval
       Demo.validations Demo.input []
     = (Return
          (Ctx.Build (VNum 422)
             (VObj [ObjectClass]
                   [("errors",
                     VArr [field_error "age" "must be a string too";
                           field_error "age" "is never valid"])])),
        ["isString"; "isString"; "no"; "console.log"]).
Proof.
  split; [reflexivity|].
  exact (example_middleware_responds Demo.apply_fn Demo.get Demo.console_log
           Demo.approval Demo.validations Demo.input []
           [VBool true; VBool false; VBool false]
           ["isString"; "isString"; "no"] eq_refl).
Defined.

Lemma example_middleware_other_errors_witness :
  validateInput Demo.get Demo.approval Demo.input [Demo.isCool] VUndefined []
  = (Throw (new_Error "Unknown validator isCool"), [])
  /\ instanceof (new_Error "Unknown validator isCool") (VFun ValidationError)
     = Return false
  /\ exists e',
      example_middleware Demo.apply_fn Demo.get Demo.console_log Demo.approval
        [Demo.isCool] Demo.input [] = (Throw e', [])
      /\ get_prop e' "name" = Return (VStr "TypeError").
Proof.
  split; [reflexivity|]. split; [reflexivity|].
  exact (example_middleware_other_errors Demo.apply_fn Demo.get Demo.console_log
           Demo.approval [Demo.isCool] Demo.input []
           (new_Error "Unknown validator isCool") [] eq_refl eq_refl).
Defined.

(** ** Completion of a run *)

Section Completion.

Context {W : Type}.
Variable apply_fn : fn -> list value -> M (W := W) value.
Variable dottie_get : value -> string -> value -> value.

(** The loop throws as soon as a name does not resolve or a predicate
    throws. *)
Lemma validate_each_incomplete this input options validations :
  forall errors (w : W),
    predicate_results dottie_get this input options validations w = None ->
    exists e w',
      validate_each dottie_get this input options validations errors w
      = (Throw e, w').
Proof.
  induction validations as [|r rest IH]; simpl; intros errors w H.
  - discriminate.
  - destruct (validators this !! Validation.validator r) as [f|];
      [|unfold throw; eauto].
    unfold bind. destruct (f _ _ _ w) as [[v|e] w0]; [|eauto].
    destruct (predicate_results _ _ _ _ rest w0) as [[vs w1]|] eqn:E;
      [discriminate|].
    eauto.
Qed.

(** X20.  [validateInput] returns normally exactly when every rule's
    validator name resolves, no predicate throws and every predicate's
    result is truthy; in every other case it throws. *)
Theorem validateInput_returns_iff this input validations options (w : W) :
  (exists r w', validateInput dottie_get this input validations options w
                = (Return r, w'))
  <-> exists vs w',
        predicate_results dottie_get this input
          (default_arg options empty_object) validations w = Some (vs, w')
        /\ forallb truthy vs = true.
Proof.
  split.
  - intros (r & w' & Hreturn).
    destruct (predicate_results dottie_get this input
                (default_arg options empty_object) validations w)
      as [[vs w1]|] eqn:E.
    + exists vs, w1. split; [reflexivity|].
      rewrite (validateInput_results _ _ _ _ _ _ _ _ E) in Hreturn.
      destruct (forallb truthy vs); [reflexivity|discriminate].
    + destruct (validate_each_incomplete _ _ _ _ [] w E) as (e & w1 & Hthrow).
      unfold validateInput, bind in Hreturn. rewrite Hthrow in Hreturn.
      discriminate.
  - intros (vs & w' & H & Hall). exists VUndefined, w'.
    rewrite (validateInput_results _ _ _ _ _ _ _ _ H), Hall. reflexivity.
Qed.

(** X21.  When a rule passes its name and code tests, its block decides:
    it is called with the error and the context ([{}] when omitted), and
    if it throws, [handleError] throws what it threw instead of answering;
    the rules after it are not tried. *)
Theorem handleError_block_throw_propagates
    chain props before handler after options (w w1 : W) kind block e w2 :
  instanceof (VObj chain props) (VFun ValidationError) = Return false ->
  find_handler apply_fn (VObj chain props) before
    (default_arg options empty_object) w = (Return None, w1) ->
  Handler.error handler = VStr kind ->
  strict_eq (VStr kind) (lookup_prop "name" props) = true ->
  strict_eq (read (or_else (Handler.options handler) empty_object) "code")
    VUndefined = true ->
  read (or_else (Handler.options handler) empty_object) "block" = VFun block ->
  apply_fn block [VObj chain props; default_arg options empty_object] w1
  = (Throw e, w2) ->
  handleError apply_fn (VObj chain props)
    (Some (before ++ handler :: after)%list) options w
  = (Throw e, w2).
Proof.
  intros Hinst Hbefore Herror Hname Hcode Hblock Hcall.
  assert (Hthrow : handler_applies apply_fn (VObj chain props) handler
                     (default_arg options empty_object) w1 = (Throw e, w2)).
  { rewrite (handler_applies_by_name apply_fn chain props handler _ w1 kind Herror).
    rewrite Hname. unfold read in Hcode, Hblock.
    destruct (get_prop (or_else (Handler.options handler) empty_object) "code");
      destruct (get_prop (or_else (Handler.options handler) empty_object) "block");
      try discriminate; subst; rewrite Hcode; simpl; rewrite Hcall; reflexivity. }
  unfold handleError, bind, lift. rewrite Hinst.
  rewrite (find_handler_throw apply_fn _ before handler after _ w w1 w2 e
             Hbefore Hthrow).
  reflexivity.
Qed.

End Completion.

Lemma handleError_block_throw_propagates_witness :
  let handler :=
    Handler.Build "system" (VStr "TypeError")
      (Demo.options_with_block Demo.boom) "m" in
  instanceof Demo.type_error (VFun ValidationError) = Return false
  /\ find_handler Demo.apply_fn Demo.type_error
       [Demo.on (VStr "MongoError") "is already taken"]
       (default_arg VUndefined empty_object) [] = (Return None, [])
  /\ read (or_else (Handler.options handler) empty_object) "block" = Demo.boom
  /\ Demo.apply_fn (Fn "boom" 4)
       [Demo.type_error; default_arg VUndefined empty_object] []
     = (Throw (new_Error "boom"), ["boom"])
  /\ handleError Demo.apply_fn Demo.type_error
       (Some ([Demo.on (VStr "MongoError") "is already taken"]
              ++ handler :: [Demo.on (VStr "TypeError") "n"])%list)
       VUndefined []
     = (Throw (new_Error "boom"), ["boom"]).
Proof.
  intros handler.
  split; [reflexivity|]. split; [reflexivity|].
  split; [reflexivity|]. split; [reflexivity|].
  exact (handleError_block_throw_propagates Demo.apply_fn
           [TypeErrorClass; ErrorClass; ObjectClass]
           [("message", VStr "x"); ("name", VStr "TypeError")]
           [Demo.on (VStr "MongoError") "is already taken"] handler
           [Demo.on (VStr "TypeError") "n"] VUndefined [] [] "TypeError"
           (Fn "boom" 4) (new_Error "boom") ["boom"]
           eq_refl eq_refl eq_refl eq_refl eq_refl eq_refl eq_refl).
Defined.
